(** * Webhook order router: option-symbol formatting, strategy translation
      and the HTTP handler.

    Shallow embedding of [trading_strategies.py] and [main.py].

    - Python [str] is [string] (ASCII text; [upper]/[lower] act on the
      ASCII letters).
    - Python [float] is IEEE-754 binary64, taken from [SpecFloat] at
      precision 53 and maximal exponent 1024; Python [int] is [Z].
    - A strike is annotated [float]; a JSON number arrives as an [int] or
      a [float], so a strike is a [number].
    - The brokerage client is external: it is a parameter that answers a
      submitted order with an order or with an exception, and the state
      threaded through the code is the list of orders handed to its
      [submit_order].
    - The strategy functions and the keyword binding of the handler are
      modelled at the annotated types of their parameters; a payload
      value of another type is outside the embedding, and the handler's
      model is [None] there.
    - [print] calls write to standard output only and are left out. *)

From Stdlib Require Import ZArith QArith List String Ascii Bool Lia.
From Stdlib Require Import SpecFloat.
Import ListNotations.
Local Open Scope string_scope.
Local Open Scope Z_scope.
Set Warnings "-register-all".

(** ** Exceptions and results *)

Inductive exn : Type :=
| ValueError (msg : string)
| TypeError (msg : string)
| OverflowError (msg : string)
| IndexError (msg : string)
| AttributeError (msg : string)
| APIError (msg : string)
| HTTPException (code : Z)
| OtherException (cls msg : string).

Inductive result (A : Type) : Type :=
| Ok (a : A)
| Raise (e : exn).
Arguments Ok {A} a.
Arguments Raise {A} e.

(** ** Python numbers *)

Module Py.

Definition prec : Z := 53.
Definition emax : Z := 1024.

Definition float : Type := spec_float.

(** [float(z)] for an [int]: the nearest binary64, ties to even. *)
Definition float_of_int (z : Z) : float := binary_normalize prec emax z 0 false.

(** A decimal literal [num / 10^k] with both parts exact in binary64 is
    the correctly rounded quotient. *)
Definition float_lit (num den : Z) : float :=
  SFdiv prec emax (float_of_int num) (float_of_int den).

Definition is_finite (f : float) : bool :=
  match f with
  | S754_zero _ | S754_finite _ _ _ => true
  | S754_infinity _ | S754_nan => false
  end.

Inductive number : Type :=
| PyInt (z : Z)
| PyFloat (f : float).

(** Neither an infinity nor NaN; every [int] is finite. *)
Definition finite (a : number) : bool :=
  match a with
  | PyInt _ => true
  | PyFloat f => is_finite f
  end.

Definition is_nan (a : number) : bool :=
  match a with
  | PyFloat S754_nan => true
  | _ => false
  end.

(** Exact comparison of an [int] with a [float], as CPython does it;
    [None] when the float is NaN. *)
Definition compare_int_float (z : Z) (f : float) : option comparison :=
  match f with
  | S754_nan => None
  | S754_infinity s => Some (if s then Gt else Lt)
  | S754_zero _ => Some (z ?= 0)
  | S754_finite s m e =>
      let v := if s then Z.neg m else Z.pos m in
      if 0 <=? e then Some (z ?= v * 2 ^ e)
      else Some (z * 2 ^ (- e) ?= v)
  end.

(** [a < b] *)
Definition lt (a b : number) : bool :=
  match a, b with
  | PyInt x, PyInt y => x <? y
  | PyFloat x, PyFloat y => SFltb x y
  | PyInt x, PyFloat y =>
      match compare_int_float x y with Some Lt => true | _ => false end
  | PyFloat x, PyInt y =>
      match compare_int_float y x with Some Gt => true | _ => false end
  end.

(** [a * k] for an [int] literal [k] *)
Definition mul_int (a : number) (k : Z) : number :=
  match a with
  | PyInt x => PyInt (x * k)
  | PyFloat x => PyFloat (SFmul prec emax x (float_of_int k))
  end.

(** [int(a)]: truncation toward zero; NaN and the infinities raise. *)
Definition int (a : number) : result Z :=
  match a with
  | PyInt x => Ok x
  | PyFloat S754_nan => Raise (ValueError "cannot convert float NaN to integer")
  | PyFloat (S754_infinity _) =>
      Raise (OverflowError "cannot convert float infinity to integer")
  | PyFloat (S754_zero _) => Ok 0
  | PyFloat (S754_finite s m e) =>
      let v := if 0 <=? e then Z.pos m * 2 ^ e else Z.pos m / 2 ^ (- e) in
      Ok (if s then - v else v)
  end.

End Py.

(** ** Python strings *)

Definition upper_ascii (c : ascii) : ascii :=
  let n := nat_of_ascii c in
  if (andb (Nat.leb 97 n) (Nat.leb n 122)) then ascii_of_nat (n - 32) else c.

Definition lower_ascii (c : ascii) : ascii :=
  let n := nat_of_ascii c in
  if (andb (Nat.leb 65 n) (Nat.leb n 90)) then ascii_of_nat (n + 32) else c.

Fixpoint str_map (f : ascii -> ascii) (s : string) : string :=
  match s with
  | EmptyString => EmptyString
  | String c r => String (f c) (str_map f r)
  end.

(** [s.upper()], [s.lower()] *)
Definition upper (s : string) : string := str_map upper_ascii s.
Definition lower (s : string) : string := str_map lower_ascii s.

(** [s.replace(c, '')] for a one-character [c] *)
Fixpoint remove_char (c : ascii) (s : string) : string :=
  match s with
  | EmptyString => EmptyString
  | String a r =>
      if Ascii.eqb a c then remove_char c r else String a (remove_char c r)
  end.

(** [s[n:]] *)
Fixpoint drop (n : nat) (s : string) : string :=
  match n, s with
  | O, _ => s
  | S _, EmptyString => EmptyString
  | S k, String _ r => drop k r
  end.

(** [s[0]] *)
Definition first_char (s : string) : result ascii :=
  match s with
  | EmptyString => Raise (IndexError "string index out of range")
  | String c _ => Ok c
  end.

Fixpoint repeat_char (c : ascii) (n : nat) : string :=
  match n with
  | O => EmptyString
  | S k => String c (repeat_char c k)
  end.

(** [format(s, '<w')]: left-justified in a field of width [w], filled
    with spaces. *)
Definition ljust (w : nat) (s : string) : string :=
  s ++ repeat_char " "%char (w - String.length s).

(** [format(s, '>w')] with fill character ['0'], the digits of an
    integer field. *)
Definition zfill (w : nat) (s : string) : string :=
  repeat_char "0"%char (w - String.length s) ++ s.

Definition digit_char (d : Z) : ascii := ascii_of_nat (48 + Z.to_nat d).

(** Decimal digits of a non-negative integer, most significant first.
    [fuel] bounds the number of digits. *)
Fixpoint digits_fuel (fuel : nat) (z : Z) (acc : string) : string :=
  match fuel with
  | O => acc
  | S k =>
      let acc' := String (digit_char (z mod 10)) acc in
      if z <? 10 then acc' else digits_fuel k (z / 10) acc'
  end.

Definition str_of_nonneg (z : Z) : string :=
  digits_fuel (S (Z.to_nat (Z.log2 z))) z EmptyString.

(** [format(z, '08d')]: sign first, then zeros up to the field width. *)
Definition format_08d (z : Z) : string :=
  if z <? 0 then String "-"%char (zfill 7 (str_of_nonneg (- z)))
  else zfill 8 (str_of_nonneg z).

(** ** trading_strategies.py *)

Definition bind_result {A B : Type} (r : result A) (k : A -> result B) : result B :=
  match r with
  | Ok a => k a
  | Raise e => Raise e
  end.

Definition _get_option_symbol (underlying_symbol expiration_date option_type : string)
    (strike : Py.number) : result string :=
  let yy_mm_dd := drop 2 (remove_char "-"%char expiration_date) in
  bind_result (first_char (upper option_type)) (fun option_type_char =>
  bind_result (Py.int (Py.mul_int strike 1000)) (fun scaled =>
  let strike_formatted := format_08d scaled in
  Ok (ljust 6 (upper underlying_symbol) ++ yy_mm_dd
        ++ String option_type_char EmptyString ++ strike_formatted))).

(** ** The brokerage's order objects

    [OptionOrderRequest], the enumerations and the REST client come from
    the brokerage library. The request is a plain record of the keyword
    arguments it is built from; a keyword that is left out is [None]
    (or no legs). Each enumeration lists the members the source names
    next to the brokerage API's other values. *)

Inductive OrderSide : Type := BUY | SELL.
Inductive OrderType : Type := MARKET | LIMIT | STOP | STOP_LIMIT.
Inductive OrderClass : Type := SIMPLE | BRACKET | OCO | OTO | MULTILEG.

(** [DAY] is the member the source names; a value supplied by the caller
    is the string it sent, passed through unchanged. *)
Inductive TimeInForce : Type :=
| DAY
| TimeInForce_of (value : string).

Inductive OptionOrderRequest : Type := mkOptionOrderRequest {
  symbol : string;
  qty : Z;
  side : OrderSide;
  type : option OrderType;
  time_in_force : option TimeInForce;
  order_class : option OrderClass;
  limit_price : option Py.float;
  legs : list OptionOrderRequest
}.

(** The order object the brokerage answers with. *)
Record Order : Type := mkOrder { id : string }.

(** The REST client: its answer to [submit_order] may depend on the
    orders it was handed before. *)
Definition Client : Type :=
  list OptionOrderRequest -> OptionOrderRequest -> result Order.

(** ** Effects: the submissions made so far, and exceptions *)

Definition M (A : Type) : Type :=
  list OptionOrderRequest -> result A * list OptionOrderRequest.

Definition ret {A : Type} (a : A) : M A := fun log => (Ok a, log).

Definition raise {A : Type} (e : exn) : M A := fun log => (Raise e, log).

Definition bind {A B : Type} (m : M A) (k : A -> M B) : M B :=
  fun log =>
    match m log with
    | (Ok a, log') => k a log'
    | (Raise e, log') => (Raise e, log')
    end.

Definition lift {A : Type} (r : result A) : M A := fun log => (r, log).

(** [try: m  except APIError as e: h e]; any other exception passes. *)
Definition try_except_APIError {A : Type} (m : M A) (h : string -> M A) : M A :=
  fun log =>
    match m log with
    | (Raise (APIError msg), log') => h msg log'
    | other => other
    end.

Notation "x <- m ;; k" := (bind m (fun x => k))
  (at level 61, m at next level, right associativity).

(** [client.submit_order(order_data=order_data)] *)
Definition submit_order (client : Client) (order_data : OptionOrderRequest) : M Order :=
  fun log => (client log order_data, (log ++ [order_data])%list).

Definition leg (sym : string) (quantity : Z) (sd : OrderSide)
    (time_in_force : TimeInForce) : OptionOrderRequest :=
  {| symbol := sym; qty := quantity; side := sd; type := Some LIMIT;
     time_in_force := Some time_in_force; order_class := None;
     limit_price := None; legs := [] |}.

Definition bare_leg (sym : string) (quantity : Z) (sd : OrderSide) : OptionOrderRequest :=
  {| symbol := sym; qty := quantity; side := sd; type := None;
     time_in_force := None; order_class := None;
     limit_price := None; legs := [] |}.

Definition trade_bull_call_spread (client : Client)
    (underlying_symbol expiration_date : string)
    (long_strike short_strike : Py.number) (quantity : Z)
    (time_in_force : TimeInForce) : M Order :=
  if negb (Py.lt long_strike short_strike) then
    raise (ValueError
      "For a Bull Call Spread, the long_strike must be less than the short_strike.")
  else
    long_call_symbol <-
      lift (_get_option_symbol underlying_symbol expiration_date "C" long_strike) ;;
    short_call_symbol <-
      lift (_get_option_symbol underlying_symbol expiration_date "C" short_strike) ;;
    let order_data :=
      {| symbol := underlying_symbol;
         qty := quantity;
         side := BUY;
         type := Some LIMIT;
         time_in_force := Some time_in_force;
         order_class := Some MULTILEG;
         limit_price := Some (Py.float_lit 50 100);
         legs := [ leg long_call_symbol quantity BUY time_in_force;
                   leg short_call_symbol quantity SELL time_in_force ] |} in
    try_except_APIError
      (order <- submit_order client order_data ;; ret order)
      (fun msg => raise (APIError msg)).

Definition trade_bear_call_spread (client : Client)
    (underlying_symbol expiration_date : string)
    (short_strike long_strike : Py.number) (quantity : Z)
    (time_in_force : TimeInForce) : M Order :=
  if negb (Py.lt short_strike long_strike) then
    raise (ValueError
      "For a Bear Call Spread, the short_strike must be less than the long_strike.")
  else
    short_call_symbol <-
      lift (_get_option_symbol underlying_symbol expiration_date "C" short_strike) ;;
    long_call_symbol <-
      lift (_get_option_symbol underlying_symbol expiration_date "C" long_strike) ;;
    let order_data :=
      {| symbol := underlying_symbol;
         qty := quantity;
         side := SELL;
         type := Some LIMIT;
         time_in_force := Some time_in_force;
         order_class := Some MULTILEG;
         limit_price := Some (Py.float_lit 25 100);
         legs := [ leg short_call_symbol quantity SELL time_in_force;
                   leg long_call_symbol quantity BUY time_in_force ] |} in
    try_except_APIError
      (order <- submit_order client order_data ;; ret order)
      (fun msg => raise (APIError msg)).

Definition trade_iron_condor (client : Client)
    (underlying_symbol expiration_date : string)
    (long_put_strike short_put_strike short_call_strike long_call_strike : Py.number)
    (quantity : Z) (time_in_force : TimeInForce) : M Order :=
  if negb (Py.lt long_put_strike short_put_strike
           && Py.lt short_put_strike short_call_strike
           && Py.lt short_call_strike long_call_strike) then
    raise (ValueError
      "Strikes must be in ascending order: long_put < short_put < short_call < long_call.")
  else
    long_put_symbol <-
      lift (_get_option_symbol underlying_symbol expiration_date "P" long_put_strike) ;;
    short_put_symbol <-
      lift (_get_option_symbol underlying_symbol expiration_date "P" short_put_strike) ;;
    short_call_symbol <-
      lift (_get_option_symbol underlying_symbol expiration_date "C" short_call_strike) ;;
    long_call_symbol <-
      lift (_get_option_symbol underlying_symbol expiration_date "C" long_call_strike) ;;
    let order_data :=
      {| symbol := underlying_symbol;
         qty := quantity;
         side := SELL;
         type := Some LIMIT;
         time_in_force := Some time_in_force;
         order_class := Some MULTILEG;
         limit_price := Some (Py.float_lit 75 100);
         legs := [ bare_leg long_put_symbol quantity BUY;
                   bare_leg short_put_symbol quantity SELL;
                   bare_leg short_call_symbol quantity SELL;
                   bare_leg long_call_symbol quantity BUY ] |} in
    try_except_APIError
      (order <- submit_order client order_data ;; ret order)
      (fun msg => raise (APIError msg)).

(** The three strategy functions behind one type: a call of a strategy
    function with its arguments. *)
Inductive strategy_call : Type :=
| BullCallSpread (underlying_symbol expiration_date : string)
    (long_strike short_strike : Py.number) (quantity : Z)
    (time_in_force : TimeInForce)
| BearCallSpread (underlying_symbol expiration_date : string)
    (short_strike long_strike : Py.number) (quantity : Z)
    (time_in_force : TimeInForce)
| IronCondor (underlying_symbol expiration_date : string)
    (long_put_strike short_put_strike short_call_strike long_call_strike : Py.number)
    (quantity : Z) (time_in_force : TimeInForce).

Definition trade (client : Client) (call : strategy_call) : M Order :=
  match call with
  | BullCallSpread u e l s q t => trade_bull_call_spread client u e l s q t
  | BearCallSpread u e s l q t => trade_bear_call_spread client u e s l q t
  | IronCondor u e lp sp sc lc q t => trade_iron_condor client u e lp sp sc lc q t
  end.

(** ** main.py *)

(** What [request.get_json()] can hand back, and the values of the
    payload. A [dict] is its list of items, looked up by key. *)
Inductive pyval : Type :=
| PyNone
| PyBool (b : bool)
| PyNum (n : Py.number)
| PyStr (s : string)
| PyList (items : list pyval)
| PyDict (items : list (string * pyval)).

Fixpoint dict_get (d : list (string * pyval)) (key : string) : option pyval :=
  match d with
  | [] => None
  | (k, v) :: rest => if String.eqb k key then Some v else dict_get rest key
  end.

(** [data.get(key)]: only a [dict] has the method. *)
Definition py_get (data : pyval) (key : string) : result (option pyval) :=
  match data with
  | PyDict d => Ok (dict_get d key)
  | _ => Raise (AttributeError "object has no attribute 'get'")
  end.

(** [v == s] for a [str] [s] *)
Definition py_eq_str (v : option pyval) (s : string) : bool :=
  match v with
  | Some (PyStr s') => String.eqb s' s
  | _ => false
  end.

(** Truth value of [os.environ.get(name)] *)
Definition truthy (v : option string) : bool :=
  match v with
  | None => false
  | Some s => negb (String.eqb s "")
  end.

Definition environ : Type := string -> option string.

Record Request : Type := mkRequest {
  method : string;
  get_json : result pyval
}.

(** The brokerage library: building a client can fail. *)
Record tradeapi : Type := mkTradeapi {
  REST : string -> string -> bool -> result Client
}.

Definition initialize_alpaca_client (lib : tradeapi) (api_key secret_key : string)
    (paper : bool) : result Client :=
  REST lib api_key secret_key paper.

(** *** Binding [**params] to a strategy function's parameters *)

Fixpoint all_in (keys allowed : list string) : bool :=
  match keys with
  | [] => true
  | k :: rest => existsb (String.eqb k) allowed && all_in rest allowed
  end.

Definition has_key (d : list (string * pyval)) (key : string) : bool :=
  match dict_get d key with Some _ => true | None => false end.

(** [f(client=client, **params)]: [params] must be a mapping, must not
    name [client] again, must name every required parameter and nothing
    that is not a parameter; each failure is a [TypeError]. *)
Definition keyword_args (required optional : list string) (params : pyval)
    : result (list (string * pyval)) :=
  match params with
  | PyDict d =>
      if has_key d "client" then
        Raise (TypeError "got multiple values for keyword argument 'client'")
      else if negb (all_in (map fst d) (required ++ optional)%list) then
        Raise (TypeError "got an unexpected keyword argument")
      else if negb (forallb (has_key d) required) then
        Raise (TypeError "missing required positional arguments")
      else Ok d
  | _ => Raise (TypeError "argument after ** must be a mapping")
  end.

(** The parameters at their annotated types: [str], [float] (which admits
    an [int]), [int], and the time in force, for which a caller can only
    send a string. A value of another type is outside this development:
    the coercion gives [None]. *)
Definition as_str (v : option pyval) : option string :=
  match v with Some (PyStr s) => Some s | _ => None end.

Definition as_number (v : option pyval) : option Py.number :=
  match v with Some (PyNum n) => Some n | _ => None end.

Definition as_int (v : option pyval) : option Z :=
  match v with Some (PyNum (Py.PyInt z)) => Some z | _ => None end.

Definition as_time_in_force (v : option pyval) : option TimeInForce :=
  match v with
  | None => Some DAY
  | Some (PyStr s) => Some (TimeInForce_of s)
  | Some _ => None
  end.

(** The outcome of binding the payload to a strategy function. *)
Inductive binding : Type :=
| Bound (call : strategy_call)
| BindingError (e : exn)
| UnknownStrategy
| OutsideAnnotations.

Definition spread_parameters (first second : string) : list string :=
  ["underlying_symbol"; "expiration_date"; first; second; "quantity"].

Definition bind_bull_call_spread (params : pyval) : binding :=
  match keyword_args (spread_parameters "long_strike" "short_strike")
          ["time_in_force"] params with
  | Raise e => BindingError e
  | Ok kw =>
      match as_str (dict_get kw "underlying_symbol"),
            as_str (dict_get kw "expiration_date"),
            as_number (dict_get kw "long_strike"),
            as_number (dict_get kw "short_strike"),
            as_int (dict_get kw "quantity"),
            as_time_in_force (dict_get kw "time_in_force") with
      | Some u, Some e, Some l, Some s, Some q, Some t =>
          Bound (BullCallSpread u e l s q t)
      | _, _, _, _, _, _ => OutsideAnnotations
      end
  end.

Definition bind_bear_call_spread (params : pyval) : binding :=
  match keyword_args (spread_parameters "short_strike" "long_strike")
          ["time_in_force"] params with
  | Raise e => BindingError e
  | Ok kw =>
      match as_str (dict_get kw "underlying_symbol"),
            as_str (dict_get kw "expiration_date"),
            as_number (dict_get kw "short_strike"),
            as_number (dict_get kw "long_strike"),
            as_int (dict_get kw "quantity"),
            as_time_in_force (dict_get kw "time_in_force") with
      | Some u, Some e, Some s, Some l, Some q, Some t =>
          Bound (BearCallSpread u e s l q t)
      | _, _, _, _, _, _ => OutsideAnnotations
      end
  end.

Definition bind_iron_condor (params : pyval) : binding :=
  match keyword_args
          ["underlying_symbol"; "expiration_date"; "long_put_strike";
           "short_put_strike"; "short_call_strike"; "long_call_strike";
           "quantity"]
          ["time_in_force"] params with
  | Raise e => BindingError e
  | Ok kw =>
      match as_str (dict_get kw "underlying_symbol"),
            as_str (dict_get kw "expiration_date"),
            as_number (dict_get kw "long_put_strike"),
            as_number (dict_get kw "short_put_strike"),
            as_number (dict_get kw "short_call_strike"),
            as_number (dict_get kw "long_call_strike"),
            as_int (dict_get kw "quantity"),
            as_time_in_force (dict_get kw "time_in_force") with
      | Some u, Some e, Some lp, Some sp, Some sc, Some lc, Some q, Some t =>
          Bound (IronCondor u e lp sp sc lc q t)
      | _, _, _, _, _, _, _, _ => OutsideAnnotations
      end
  end.

(** The [if]/[elif] chain on [strategy_name]. *)
Definition bind_strategy (strategy_name : option pyval) (params : pyval) : binding :=
  if py_eq_str strategy_name "bull_call_spread" then bind_bull_call_spread params
  else if py_eq_str strategy_name "bear_call_spread" then bind_bear_call_spread params
  else if py_eq_str strategy_name "iron_condor" then bind_iron_condor params
  else UnknownStrategy.

(** *** The handler *)

(** The bodies the handler answers with; the two error bodies embed the
    exception they report. *)
Inductive body : Type :=
| OrderSubmitted
| UnknownStrategyBody
| InvalidParameters (e : exn)
| ExecutionError (e : exn).

Definition response : Type := (body * Z)%type.

(** [abort(code)] raises the HTTP exception that the framework turns into
    a response with that status. *)
Definition abort {A : Type} (code : Z) : result A := Raise (HTTPException code).

(** The status the caller of the endpoint sees: the returned one, the
    aborted one, or 500 for an exception that leaves the handler. *)
Definition http_status (r : result response) : Z :=
  match r with
  | Ok (_, status) => status
  | Raise (HTTPException code) => code
  | Raise _ => 500
  end.

(** [not expected_secret or data.get('secret_key') != expected_secret] *)
Definition authentication_failed (expected_secret : option string) (data : pyval)
    : result bool :=
  match expected_secret with
  | None => Ok true
  | Some secret =>
      if String.eqb secret "" then Ok true
      else bind_result (py_get data "secret_key") (fun given =>
           Ok (negb (py_eq_str given secret)))
  end.

(** The two [except] clauses around the strategy call. *)
Definition except_clauses (r : result response * list OptionOrderRequest)
    : result response * list OptionOrderRequest :=
  match r with
  | (Raise (ValueError msg), log) => (Ok (InvalidParameters (ValueError msg), 400), log)
  | (Raise (TypeError msg), log) => (Ok (InvalidParameters (TypeError msg), 400), log)
  | (Raise e, log) => (Ok (ExecutionError e, 500), log)
  | (Ok resp, log) => (Ok resp, log)
  end.

(** Step 3 of the handler, the [try] statement. [None] when a parameter
    value is outside its annotated type. *)
Definition route_to_strategy (client : Client) (strategy_name : option pyval)
    (params : pyval) : option (result response * list OptionOrderRequest) :=
  match bind_strategy strategy_name params with
  | Bound call =>
      Some (except_clauses
              ((_ <- trade client call ;; ret (OrderSubmitted, 200)) []))
  | BindingError e => Some (except_clauses (Raise e, []))
  | UnknownStrategy => Some (Ok (UnknownStrategyBody, 400), [])
  | OutsideAnnotations => None
  end.

(** [os.environ.get(name, default)] *)
Definition environ_get (env : environ) (name default : string) : string :=
  match env name with
  | Some v => v
  | None => default
  end.

Definition handler (lib : tradeapi) (env : environ) (request : Request)
    : option (result response * list OptionOrderRequest) :=
  if negb (String.eqb (method request) "POST") then Some (abort 405, [])
  else
    match get_json request with
    | Raise _ => Some (abort 400, [])
    | Ok data =>
        let expected_secret := env "WEBHOOK_SECRET_KEY" in
        match authentication_failed expected_secret data with
        | Raise e => Some (Raise e, [])
        | Ok true => Some (abort 403, [])
        | Ok false =>
            let api_key := env "ALPACA_API_KEY" in
            let secret_key := env "ALPACA_SECRET_KEY" in
            let use_paper_trading :=
              String.eqb (lower (environ_get env "ALPACA_PAPER_TRADING" "true"))
                "true" in
            if negb (truthy api_key && truthy secret_key) then Some (abort 500, [])
            else
              match initialize_alpaca_client lib
                      (environ_get env "ALPACA_API_KEY" "")
                      (environ_get env "ALPACA_SECRET_KEY" "")
                      use_paper_trading with
              | Raise _ => Some (abort 500, [])
              | Ok client =>
                  match py_get data "strategy", py_get data "params" with
                  | Ok strategy_name, Ok params =>
                      route_to_strategy client strategy_name
                        (match params with
                         | Some p => p
                         | None => PyDict []
                         end)
                  | Raise e, _ | _, Raise e => Some (Raise e, [])
                  end
              end
        end
    end.

(** ** Vocabulary of the properties *)

(** The number a string of decimal digits stands for, read from the
    left, starting from [acc]. *)
Fixpoint decimal_value (s : string) (acc : Z) : Z :=
  match s with
  | EmptyString => acc
  | String c rest =>
      decimal_value rest (10 * acc + (Z.of_nat (nat_of_ascii c) - 48))
  end.

(** The mantissa of a rounding record is not negative. *)
Definition nonneg_mantissa (mrs : shr_record) : Prop := 0 <= shr_m mrs.

(** The strike ordering each strategy documents: bull call spread
    [long < short], bear call spread [short < long], iron condor
    [long_put < short_put < short_call < long_call]. *)
Definition strikes_ordered (call : strategy_call) : bool :=
  match call with
  | BullCallSpread _ _ long_strike short_strike _ _ =>
      Py.lt long_strike short_strike
  | BearCallSpread _ _ short_strike long_strike _ _ =>
      Py.lt short_strike long_strike
  | IronCondor _ _ long_put short_put short_call long_call _ _ =>
      Py.lt long_put short_put && Py.lt short_put short_call
      && Py.lt short_call long_call
  end.

Definition ordering_message (call : strategy_call) : string :=
  match call with
  | BullCallSpread _ _ _ _ _ _ =>
      "For a Bull Call Spread, the long_strike must be less than the short_strike."
  | BearCallSpread _ _ _ _ _ _ =>
      "For a Bear Call Spread, the short_strike must be less than the long_strike."
  | IronCondor _ _ _ _ _ _ _ _ =>
      "Strikes must be in ascending order: long_put < short_put < short_call < long_call."
  end.

(** A strike whose product with 1000 stays in the binary64 range. *)
Definition scalable (strike : Py.number) : bool :=
  Py.finite (Py.mul_int strike 1000).

(** The rational a finite float stands for, in lowest terms. *)
Definition exact_value (f : Py.float) : option Q :=
  match f with
  | S754_zero _ => Some 0%Q
  | S754_finite s m e =>
      let v := if s then Z.neg m else Z.pos m in
      Some (Qred (if 0 <=? e then inject_Z (v * 2 ^ e)
                  else Qmake v (Z.to_pos (2 ^ (- e)))))
  | _ => None
  end.

(** The float literal each strategy function passes as [limit_price]:
    [0.50], [0.25], [0.75]. *)
Definition coded_limit_price (call : strategy_call) : Py.float :=
  match call with
  | BullCallSpread _ _ _ _ _ _ => Py.float_lit 50 100
  | BearCallSpread _ _ _ _ _ _ => Py.float_lit 25 100
  | IronCondor _ _ _ _ _ _ _ _ => Py.float_lit 75 100
  end.

(** The per-strategy limit price as a rational in lowest terms:
    1/2, 1/4 and 3/4. *)
Definition stated_limit_price (call : strategy_call) : Q :=
  match call with
  | BullCallSpread _ _ _ _ _ _ => (1 # 2)%Q
  | BearCallSpread _ _ _ _ _ _ => (1 # 4)%Q
  | IronCondor _ _ _ _ _ _ _ _ => (3 # 4)%Q
  end.

(** [use_paper_trading] as the handler reads it from the environment. *)
Definition paper_trading (env : environ) : bool :=
  String.eqb (lower (environ_get env "ALPACA_PAPER_TRADING" "true")) "true".

(** The request gets through the handler's steps 1 and 2: it is a POST
    whose body parses to the object [data], [data] carries the non-empty
    webhook secret, both brokerage credentials are set, and the library
    hands out [client]. *)
Definition passes_checks (lib : tradeapi) (env : environ) (request : Request)
    (data : list (string * pyval)) (client : Client) : Prop :=
  method request = "POST" /\
  get_json request = Ok (PyDict data) /\
  (exists secret,
      env "WEBHOOK_SECRET_KEY" = Some secret /\ secret <> "" /\
      dict_get data "secret_key" = Some (PyStr secret)) /\
  (exists api_key secret_key,
      env "ALPACA_API_KEY" = Some api_key /\ api_key <> "" /\
      env "ALPACA_SECRET_KEY" = Some secret_key /\ secret_key <> "" /\
      REST lib api_key secret_key (paper_trading env) = Ok client).

(** [data.get('params', {})] *)
Definition params_of (data : list (string * pyval)) : pyval :=
  match dict_get data "params" with
  | Some p => p
  | None => PyDict []
  end.

(** ** Concrete inputs used by the examples below *)

Module Sample.

Definition float_500_0 : Py.float := Py.float_lit 5000 10.
Definition float_220_0 : Py.float := Py.float_lit 2200 10.
Definition float_225_0 : Py.float := Py.float_lit 2250 10.

(** A client that accepts every order. *)
Definition accepting : Client := fun _ _ => Ok (mkOrder "order-1").



Definition lib (client : Client) : tradeapi := mkTradeapi (fun _ _ _ => Ok client).

Definition env : environ := fun name =>
  if String.eqb name "WEBHOOK_SECRET_KEY" then Some "s3cret"
  else if String.eqb name "ALPACA_API_KEY" then Some "key"
  else if String.eqb name "ALPACA_SECRET_KEY" then Some "secret"
  else None.

(** The same environment without [WEBHOOK_SECRET_KEY]. *)
Definition env_without_secret : environ := fun name =>
  if String.eqb name "ALPACA_API_KEY" then Some "key"
  else if String.eqb name "ALPACA_SECRET_KEY" then Some "secret"
  else None.

Definition payload (secret strategy : string) (params : list (string * pyval))
    : list (string * pyval) :=
  [("secret_key", PyStr secret); ("strategy", PyStr strategy);
   ("params", PyDict params)].

Definition spread_params (long_strike short_strike : Py.number)
    : list (string * pyval) :=
  [("underlying_symbol", PyStr "COIN"); ("expiration_date", PyStr "2025-07-25");
   ("long_strike", PyNum long_strike); ("short_strike", PyNum short_strike);
   ("quantity", PyNum (Py.PyInt 1))].

Definition post (data : list (string * pyval)) : Request :=
  mkRequest "POST" (Ok (PyDict data)).

Definition bull_220_225 : strategy_call :=
  BullCallSpread "COIN" "2025-07-25" (Py.PyFloat float_220_0)
    (Py.PyFloat float_225_0) 1 DAY.


(** A GET request whose payload carries a wrong secret. *)
Definition get_wrong_secret : Request :=
  mkRequest "GET" (Ok (PyDict (payload "wrong" "bull_call_spread" []))).

(** A POST whose body is not JSON: [get_json] raises. *)
Definition post_unparseable : Request :=
  mkRequest "POST" (Raise (HTTPException 400)).

(** The documented example request: a bull call spread with the right
    secret. *)
Definition bull_request : Request :=
  post (payload "s3cret" "bull_call_spread"
          (spread_params (Py.PyFloat float_220_0) (Py.PyFloat float_225_0))).

End Sample.

(** ** Further vocabulary *)

(** The strikes of a call, in the order the function names them. *)
Definition strikes (call : strategy_call) : list Py.number :=
  match call with
  | BullCallSpread _ _ long_strike short_strike _ _ => [long_strike; short_strike]
  | BearCallSpread _ _ short_strike long_strike _ _ => [short_strike; long_strike]
  | IronCondor _ _ long_put short_put short_call long_call _ _ =>
      [long_put; short_put; short_call; long_call]
  end.

Definition call_quantity (call : strategy_call) : Z :=
  match call with
  | BullCallSpread _ _ _ _ q _ | BearCallSpread _ _ _ _ q _
  | IronCondor _ _ _ _ _ _ q _ => q
  end.

Definition call_time_in_force (call : strategy_call) : TimeInForce :=
  match call with
  | BullCallSpread _ _ _ _ _ t | BearCallSpread _ _ _ _ _ t
  | IronCondor _ _ _ _ _ _ _ t => t
  end.

Definition call_underlying (call : strategy_call) : string :=
  match call with
  | BullCallSpread u _ _ _ _ _ | BearCallSpread u _ _ _ _ _
  | IronCondor u _ _ _ _ _ _ _ => u
  end.



(** One of the three names the handler routes. *)
Definition known_strategy (strategy_name : option pyval) : bool :=
  py_eq_str strategy_name "bull_call_spread"
  || py_eq_str strategy_name "bear_call_spread"
  || py_eq_str strategy_name "iron_condor".

(** The text [YYYY-MM-DD] made of eight given characters. *)
Definition iso_date (y1 y2 y3 y4 m1 m2 d1 d2 : ascii) : string :=
  String y1 (String y2 (String y3 (String y4 (String "-"%char
    (String m1 (String m2 (String "-"%char
      (String d1 (String d2 EmptyString))))))))).

Definition no_hyphen (c : ascii) : bool := negb (Ascii.eqb c "-"%char).

(** The parameters a strategy function requires, by the name the
    handler routes on, in the order of the function's signature. *)
Definition required_parameters (strategy_name : option pyval) : list string :=
  if py_eq_str strategy_name "bull_call_spread" then
    ["underlying_symbol"; "expiration_date"; "long_strike"; "short_strike";
     "quantity"]
  else if py_eq_str strategy_name "bear_call_spread" then
    ["underlying_symbol"; "expiration_date"; "short_strike"; "long_strike";
     "quantity"]
  else
    ["underlying_symbol"; "expiration_date"; "long_put_strike";
     "short_put_strike"; "short_call_strike"; "long_call_strike"; "quantity"].

(** The status and body the handler gives to an exception of the
    strategy call, by its class. *)
Definition answer_to (e : exn) : response :=
  match e with
  | ValueError _ | TypeError _ => (InvalidParameters e, 400)
  | _ => (ExecutionError e, 500)
  end.

(** A call written as the payload the handler expects for it: the name
    it routes on and the object of keyword arguments, with the time in
    force left out when it is the default. *)
Definition call_name (call : strategy_call) : string :=
  match call with
  | BullCallSpread _ _ _ _ _ _ => "bull_call_spread"
  | BearCallSpread _ _ _ _ _ _ => "bear_call_spread"
  | IronCondor _ _ _ _ _ _ _ _ => "iron_condor"
  end.

Definition time_in_force_params (t : TimeInForce) : list (string * pyval) :=
  match t with
  | DAY => []
  | TimeInForce_of value => [("time_in_force", PyStr value)]
  end.

Definition call_params (call : strategy_call) : list (string * pyval) :=
  match call with
  | BullCallSpread u e l s q t =>
      [("underlying_symbol", PyStr u); ("expiration_date", PyStr e);
       ("long_strike", PyNum l); ("short_strike", PyNum s);
       ("quantity", PyNum (Py.PyInt q))] ++ time_in_force_params t
  | BearCallSpread u e s l q t =>
      [("underlying_symbol", PyStr u); ("expiration_date", PyStr e);
       ("short_strike", PyNum s); ("long_strike", PyNum l);
       ("quantity", PyNum (Py.PyInt q))] ++ time_in_force_params t
  | IronCondor u e lp sp sc lc q t =>
      [("underlying_symbol", PyStr u); ("expiration_date", PyStr e);
       ("long_put_strike", PyNum lp); ("short_put_strike", PyNum sp);
       ("short_call_strike", PyNum sc); ("long_call_strike", PyNum lc);
       ("quantity", PyNum (Py.PyInt q))] ++ time_in_force_params t
  end%list.




Module More.

Definition float_nan : Py.float := S754_nan.

(** An environment with every variable of [Sample.env] and
    [ALPACA_PAPER_TRADING] set to [value]. *)
Definition env_paper (value : string) : environ := fun name =>
  if String.eqb name "ALPACA_PAPER_TRADING" then Some value
  else Sample.env name.

(** The environment of [Sample.env] without [ALPACA_SECRET_KEY]. *)
Definition env_without_credentials : environ := fun name =>
  if String.eqb name "WEBHOOK_SECRET_KEY" then Some "s3cret"
  else if String.eqb name "ALPACA_API_KEY" then Some "key"
  else None.

(** A library that hands out a client for paper trading only. *)
Definition paper_only (client : Client) : tradeapi :=
  mkTradeapi (fun _ _ paper =>
    if paper then Ok client
    else Raise (OtherException "ValueError" "live trading is not enabled")).

(** A library whose constructor always fails. *)
Definition broken_lib : tradeapi :=
  mkTradeapi (fun _ _ _ => Raise (OtherException "ConnectionError" "unreachable")).

Definition bear_220_225 : strategy_call :=
  BearCallSpread "COIN" "2025-07-25" (Py.PyFloat Sample.float_220_0)
    (Py.PyFloat Sample.float_225_0) 1 DAY.



Definition request_of (strategy : string) (params : list (string * pyval)) : Request :=
  Sample.post (Sample.payload "s3cret" strategy params).

End More.

(** Unfolds a strategy function down to its monadic steps. *)
Ltac run_strategy :=
  unfold trade, trade_bull_call_spread, trade_bear_call_spread,
    trade_iron_condor, bind, lift, raise;
  cbn [strikes_ordered ordering_message negb].

(** * Properties *)

(** ** Floating-point facts: rounding never yields NaN *)

Lemma shr_1_nonneg mrs : nonneg_mantissa mrs -> nonneg_mantissa (shr_1 mrs).
Proof.
  destruct mrs as [m r s]; unfold nonneg_mantissa; simpl.
  destruct m as [|p|p]; [ | destruct p | ]; simpl; lia.
Qed.

Lemma iter_pos_preserves {A : Type} (P : A -> Prop) (g : A -> A) :
  (forall x, P x -> P (g x)) -> forall p x, P x -> P (iter_pos g p x).
Proof.
  intros Hg p; induction p as [p IH|p IH|]; intros x Hx; simpl; auto.
Qed.

Lemma shr_nonneg mrs e n : nonneg_mantissa mrs -> nonneg_mantissa (fst (shr mrs e n)).
Proof.
  intros H; unfold shr; destruct n; simpl; auto.
  apply iter_pos_preserves; auto using shr_1_nonneg.
Qed.

Lemma shr_fexp_nonneg m e l :
  0 <= m -> nonneg_mantissa (fst (shr_fexp Py.prec Py.emax m e l)).
Proof.
  intros H; unfold shr_fexp; apply shr_nonneg.
  destruct l as [|[]]; exact H.
Qed.

Lemma round_nearest_even_nonneg m l : 0 <= m -> 0 <= round_nearest_even m l.
Proof.
  intros H; unfold round_nearest_even.
  destruct l as [|[]]; try destruct (Z.even m); lia.
Qed.

Lemma binary_round_aux_not_nan s m e l :
  binary_round_aux Py.prec Py.emax s (Z.pos m) e l <> S754_nan.
Proof.
  unfold binary_round_aux.
  pose proof (shr_fexp_nonneg (Z.pos m) e l ltac:(lia)) as H1.
  destruct (shr_fexp Py.prec Py.emax (Z.pos m) e l) as [mrs1 e1]; simpl in H1.
  pose proof (shr_fexp_nonneg
                (round_nearest_even (shr_m mrs1) (loc_of_shr_record mrs1))
                e1 loc_Exact
                (round_nearest_even_nonneg _ _ H1)) as H2.
  destruct (shr_fexp Py.prec Py.emax _ e1 loc_Exact) as [mrs2 e2]; simpl in H2.
  unfold nonneg_mantissa in H2.
  destruct (shr_m mrs2) as [|p|p]; try discriminate; try lia.
  destruct (e2 <=? Py.emax - Py.prec); discriminate.
Qed.

(** Scaling by 1000 yields NaN only from NaN. *)
Lemma mul_1000_nan (x : Py.float) :
  SFmul Py.prec Py.emax x (Py.float_of_int 1000) = S754_nan -> x = S754_nan.
Proof.
  change (Py.float_of_int 1000) with (S754_finite false 8796093022208000 (-43)).
  destruct x as [s|s| |s m e]; simpl; try discriminate; auto.
  intros H; exfalso; revert H; apply binary_round_aux_not_nan.
Qed.

Lemma lt_not_nan a b : Py.lt a b = true -> Py.is_nan a = false /\ Py.is_nan b = false.
Proof.
  destruct a as [x|[s|s| |s m e]], b as [y|[s'|s'| |s' m' e']];
    simpl; try discriminate; auto.
Qed.

Lemma int_scaled_no_ValueError a msg :
  Py.is_nan a = false -> Py.int (Py.mul_int a 1000) <> Raise (ValueError msg).
Proof.
  destruct a as [x|x]; intros Hnan; cbn [Py.mul_int]; [discriminate|].
  destruct (SFmul Py.prec Py.emax x (Py.float_of_int 1000)) eqn:E;
    cbn [Py.int]; try discriminate.
  apply mul_1000_nan in E; subst x; discriminate.
Qed.

Lemma int_finite a : Py.finite a = true -> exists z, Py.int a = Ok z.
Proof.
  destruct a as [x|[s|s| |s m e]]; simpl; try discriminate; eauto.
Qed.

(** ** Formatting integers *)

Lemma digit_char_value d :
  0 <= d < 10 -> Z.of_nat (nat_of_ascii (digit_char d)) - 48 = d.
Proof.
  intros H; unfold digit_char.
  rewrite nat_ascii_embedding by lia.
  lia.
Qed.

Lemma digits_fuel_value fuel : forall z acc a,
  0 <= z < 10 ^ Z.of_nat fuel ->
  exists k, 0 <= k /\
    decimal_value (digits_fuel fuel z acc) a = decimal_value acc (a * 10 ^ k + z).
Proof.
  induction fuel as [|fuel IH]; intros z acc a Hz.
  - exists 0; split; [lia|]; cbn [digits_fuel].
    f_equal; simpl in Hz; lia.
  - cbn [digits_fuel].
    destruct (z <? 10) eqn:Hlt.
    + apply Z.ltb_lt in Hlt.
      exists 1; split; [lia|]; cbn [decimal_value].
      rewrite Z.mod_small by lia.
      rewrite digit_char_value by lia.
      f_equal; lia.
    + apply Z.ltb_ge in Hlt.
      assert (Hq : 0 <= z / 10 < 10 ^ Z.of_nat fuel).
      { split; [apply Z.div_pos; lia|].
        apply Z.div_lt_upper_bound; [lia|].
        rewrite Nat2Z.inj_succ, Z.pow_succ_r in Hz by lia; lia. }
      destruct (IH (z / 10) (String (digit_char (z mod 10)) acc) a Hq)
        as (k & Hk & E).
      exists (k + 1); split; [lia|].
      rewrite E; cbn [decimal_value].
      rewrite digit_char_value by (apply Z.mod_pos_bound; lia).
      f_equal.
      rewrite Z.pow_add_r, Z.pow_1_r by lia.
      pose proof (Z.div_mod z 10 ltac:(lia)); lia.
Qed.

Lemma log2_fuel_enough z : 0 <= z -> z < 10 ^ Z.of_nat (S (Z.to_nat (Z.log2 z))).
Proof.
  intros Hz.
  rewrite Nat2Z.inj_succ, Z2Nat.id by apply Z.log2_nonneg.
  destruct (Z.eq_dec z 0) as [->|Hne]; [simpl; lia|].
  pose proof (Z.log2_spec z ltac:(lia)) as [_ Hup].
  eapply Z.lt_le_trans; [exact Hup|].
  apply Z.pow_le_mono_l; pose proof (Z.log2_nonneg z); lia.
Qed.

(** The digits printed for a non-negative integer read back as it. *)
Lemma str_of_nonneg_value z : 0 <= z -> decimal_value (str_of_nonneg z) 0 = z.
Proof.
  intros Hz; unfold str_of_nonneg.
  destruct (digits_fuel_value _ z EmptyString 0
              (conj Hz (log2_fuel_enough z Hz))) as (k & _ & E).
  rewrite E; cbn [decimal_value]; lia.
Qed.

Lemma zeros_value n s : decimal_value (repeat_char "0"%char n ++ s) 0 = decimal_value s 0.
Proof. induction n as [|n IH]; [reflexivity|exact IH]. Qed.

(** The zero-padded field of a non-negative integer reads back as it. *)
Lemma format_08d_value z : 0 <= z -> decimal_value (format_08d z) 0 = z.
Proof.
  intros Hz; unfold format_08d, zfill.
  destruct (z <? 0) eqn:Hneg; [apply Z.ltb_lt in Hneg; lia|].
  rewrite zeros_value; apply str_of_nonneg_value; exact Hz.
Qed.

Example format_08d_500000 : format_08d 500000 = "00500000".
Proof. reflexivity. Qed.

Example format_08d_wide : format_08d 123456789 = "123456789".
Proof. reflexivity. Qed.

Example format_08d_negative : format_08d (-1500) = "-0001500".
Proof. reflexivity. Qed.

Example yymmdd_of_date : drop 2 (remove_char "-"%char "2025-12-19") = "251219".
Proof. reflexivity. Qed.

Example ljust_short : ljust 6 "SPY" = "SPY   ".
Proof. reflexivity. Qed.

Example ljust_long : ljust 6 "GOOGLEX" = "GOOGLEX".
Proof. reflexivity. Qed.

Example lt_mixed :
  Py.lt (Py.PyInt 220) (Py.PyFloat (Py.float_lit 2205 10)) = true /\
  Py.lt (Py.PyFloat (Py.float_lit 2205 10)) (Py.PyInt 220) = false /\
  Py.lt (Py.PyFloat S754_nan) (Py.PyInt 1) = false /\
  Py.lt (Py.PyInt 1) (Py.PyFloat S754_nan) = false.
Proof. repeat split. Qed.

(** [int(1.001 * 1000)] is 1000: the product is just below 1001. *)
Example int_truncates :
  Py.int (Py.mul_int (Py.PyFloat (Py.float_lit 1001 1000)) 1000) = Ok 1000.
Proof. reflexivity. Qed.

(** ** The symbol formatter *)

Lemma get_option_symbol_scalable u e (c : ascii) rest strike :
  scalable strike = true ->
  exists sym, _get_option_symbol u e (String c rest) strike = Ok sym.
Proof.
  intros H; unfold _get_option_symbol, scalable in *.
  destruct (int_finite _ H) as [z Hz]; rewrite Hz; simpl; eauto.
Qed.

Lemma get_option_symbol_no_ValueError u e (c : ascii) rest strike msg :
  Py.is_nan strike = false ->
  _get_option_symbol u e (String c rest) strike <> Raise (ValueError msg).
Proof.
  intros H; unfold _get_option_symbol; simpl.
  pose proof (int_scaled_no_ValueError strike msg H) as Hn.
  destruct (Py.int (Py.mul_int strike 1000)); simpl; congruence.
Qed.

(** ** Running a strategy function *)

(** The [try]/[except APIError] around the submission hands on whatever
    the client answers, and records the order. *)
Lemma submission_outcome client order log :
  try_except_APIError
    (o <- submit_order client order ;; ret o)
    (fun msg => raise (APIError msg)) log
  = (client log order, (log ++ [order])%list).
Proof.
  unfold try_except_APIError, bind, submit_order, ret, raise.
  destruct (client log order) as [o|[]]; reflexivity.
Qed.

Lemma trade_unordered client call log :
  strikes_ordered call = false ->
  trade client call log = (Raise (ValueError (ordering_message call)), log).
Proof.
  destruct call; run_strategy; intros ->; reflexivity.
Qed.

Lemma bull_call_spread_run client u e l s q t log long_sym short_sym :
  Py.lt l s = true ->
  _get_option_symbol u e "C" l = Ok long_sym ->
  _get_option_symbol u e "C" s = Ok short_sym ->
  let order :=
    {| symbol := u; qty := q; side := BUY; type := Some LIMIT;
       time_in_force := Some t; order_class := Some MULTILEG;
       limit_price := Some (Py.float_lit 50 100);
       legs := [leg long_sym q BUY t; leg short_sym q SELL t] |} in
  trade_bull_call_spread client u e l s q t log
  = (client log order, (log ++ [order])%list).
Proof.
  intros Hlt Hl Hs order; run_strategy.
  rewrite Hlt, Hl, Hs; cbn [negb]; apply submission_outcome.
Qed.

Lemma bear_call_spread_run client u e s l q t log short_sym long_sym :
  Py.lt s l = true ->
  _get_option_symbol u e "C" s = Ok short_sym ->
  _get_option_symbol u e "C" l = Ok long_sym ->
  let order :=
    {| symbol := u; qty := q; side := SELL; type := Some LIMIT;
       time_in_force := Some t; order_class := Some MULTILEG;
       limit_price := Some (Py.float_lit 25 100);
       legs := [leg short_sym q SELL t; leg long_sym q BUY t] |} in
  trade_bear_call_spread client u e s l q t log
  = (client log order, (log ++ [order])%list).
Proof.
  intros Hlt Hs Hl order; run_strategy.
  rewrite Hlt, Hs, Hl; cbn [negb]; apply submission_outcome.
Qed.

Lemma iron_condor_run client u e lp sp sc lc q t log s1 s2 s3 s4 :
  Py.lt lp sp && Py.lt sp sc && Py.lt sc lc = true ->
  _get_option_symbol u e "P" lp = Ok s1 ->
  _get_option_symbol u e "P" sp = Ok s2 ->
  _get_option_symbol u e "C" sc = Ok s3 ->
  _get_option_symbol u e "C" lc = Ok s4 ->
  let order :=
    {| symbol := u; qty := q; side := SELL; type := Some LIMIT;
       time_in_force := Some t; order_class := Some MULTILEG;
       limit_price := Some (Py.float_lit 75 100);
       legs := [bare_leg s1 q BUY; bare_leg s2 q SELL;
                bare_leg s3 q SELL; bare_leg s4 q BUY] |} in
  trade_iron_condor client u e lp sp sc lc q t log
  = (client log order, (log ++ [order])%list).
Proof.
  intros Hlt H1 H2 H3 H4 order; run_strategy.
  rewrite Hlt, H1, H2, H3, H4; cbn [negb]; apply submission_outcome.
Qed.

(** What a strategy call hands to the client depends on the call alone:
    either one order, or nothing. In the second case the outcome is an
    exception raised before the client is reached, and it is a
    [ValueError] only when the strikes are out of order. *)
Lemma trade_submissions call :
  (exists order,
      limit_price order = Some (coded_limit_price call) /\
      strikes_ordered call = true /\
      forall client log,
        trade client call log = (client log order, (log ++ [order])%list))
  \/ (exists e,
        (strikes_ordered call = true -> forall msg, e <> ValueError msg) /\
        forall client log, trade client call log = (Raise e, log)).
Proof.
  destruct (strikes_ordered call) eqn:Hord.
  2:{ right; eexists; split; [discriminate|].
      intros; apply trade_unordered; exact Hord. }
  destruct call as [u e l s q t|u e s l q t|u e lp sp sc lc q t];
    cbn [strikes_ordered] in Hord.
  - destruct (lt_not_nan _ _ Hord) as [Nl Ns].
    destruct (_get_option_symbol u e "C" l) as [ls|x] eqn:Hl.
    2:{ right; exists x; split.
        - intros _ msg ->;
            exact (get_option_symbol_no_ValueError _ _ _ _ _ msg Nl Hl).
        - intros; run_strategy; rewrite Hord, Hl; reflexivity. }
    destruct (_get_option_symbol u e "C" s) as [ss|x] eqn:Hs.
    2:{ right; exists x; split.
        - intros _ msg ->;
            exact (get_option_symbol_no_ValueError _ _ _ _ _ msg Ns Hs).
        - intros; run_strategy; rewrite Hord, Hl, Hs; reflexivity. }
    left; eexists; split; [|split; [reflexivity|]].
    2:{ intros; apply (bull_call_spread_run client u e l s q t log ls ss); assumption. }
    reflexivity.
  - destruct (lt_not_nan _ _ Hord) as [Ns Nl].
    destruct (_get_option_symbol u e "C" s) as [ss|x] eqn:Hs.
    2:{ right; exists x; split.
        - intros _ msg ->;
            exact (get_option_symbol_no_ValueError _ _ _ _ _ msg Ns Hs).
        - intros; run_strategy; rewrite Hord, Hs; reflexivity. }
    destruct (_get_option_symbol u e "C" l) as [ls|x] eqn:Hl.
    2:{ right; exists x; split.
        - intros _ msg ->;
            exact (get_option_symbol_no_ValueError _ _ _ _ _ msg Nl Hl).
        - intros; run_strategy; rewrite Hord, Hs, Hl; reflexivity. }
    left; eexists; split; [|split; [reflexivity|]].
    2:{ intros; apply (bear_call_spread_run client u e s l q t log ss ls); assumption. }
    reflexivity.
  - pose proof Hord as Hord'.
    apply andb_prop in Hord'; destruct Hord' as [Hord' L3].
    apply andb_prop in Hord'; destruct Hord' as [L1 L2].
    destruct (lt_not_nan _ _ L1) as [N1 N2].
    destruct (lt_not_nan _ _ L3) as [N3 N4].
    destruct (_get_option_symbol u e "P" lp) as [s1|x] eqn:H1.
    2:{ right; exists x; split.
        - intros _ msg ->;
            exact (get_option_symbol_no_ValueError _ _ _ _ _ msg N1 H1).
        - intros; run_strategy; rewrite Hord, H1; reflexivity. }
    destruct (_get_option_symbol u e "P" sp) as [s2|x] eqn:H2.
    2:{ right; exists x; split.
        - intros _ msg ->;
            exact (get_option_symbol_no_ValueError _ _ _ _ _ msg N2 H2).
        - intros; run_strategy; rewrite Hord, H1, H2; reflexivity. }
    destruct (_get_option_symbol u e "C" sc) as [s3|x] eqn:H3.
    2:{ right; exists x; split.
        - intros _ msg ->;
            exact (get_option_symbol_no_ValueError _ _ _ _ _ msg N3 H3).
        - intros; run_strategy; rewrite Hord, H1, H2, H3; reflexivity. }
    destruct (_get_option_symbol u e "C" lc) as [s4|x] eqn:H4.
    2:{ right; exists x; split.
        - intros _ msg ->;
            exact (get_option_symbol_no_ValueError _ _ _ _ _ msg N4 H4).
        - intros; run_strategy; rewrite Hord, H1, H2, H3, H4; reflexivity. }
    left; eexists; split; [|split; [reflexivity|]].
    2:{ intros;
        apply (iron_condor_run client u e lp sp sc lc q t log s1 s2 s3 s4);
        assumption. }
    reflexivity.
Qed.

(** ** The handler's checks *)

Lemma eqb_empty_false s : s <> "" -> String.eqb s "" = false.
Proof. intros H; apply String.eqb_neq; exact H. Qed.

Lemma authentication_passes secret data :
  secret <> "" ->
  dict_get data "secret_key" = Some (PyStr secret) ->
  authentication_failed (Some secret) (PyDict data) = Ok false.
Proof.
  intros Hne Hget; unfold authentication_failed.
  rewrite (eqb_empty_false _ Hne); cbn [py_get bind_result].
  rewrite Hget; cbn [py_eq_str]; rewrite String.eqb_refl; reflexivity.
Qed.

(** The only way past the secret check. *)
Lemma authentication_passed_inv expected data :
  authentication_failed expected data = Ok false ->
  exists secret d,
    expected = Some secret /\ secret <> "" /\ data = PyDict d /\
    dict_get d "secret_key" = Some (PyStr secret).
Proof.
  unfold authentication_failed.
  destruct expected as [secret|]; [|discriminate].
  destruct (String.eqb secret "") eqn:Hempty; [discriminate|].
  apply String.eqb_neq in Hempty.
  destruct data as [| | | | |d]; cbn [py_get bind_result]; try discriminate.
  destruct (dict_get d "secret_key") as [[| | |s| |]|] eqn:Hget;
    cbn [py_eq_str negb]; try discriminate.
  destruct (String.eqb s secret) eqn:Hs; [|discriminate].
  apply String.eqb_eq in Hs; subst s; intros _.
  exists secret, d; auto.
Qed.

Lemma handler_after_checks lib env request data client :
  passes_checks lib env request data client ->
  handler lib env request
  = route_to_strategy client (dict_get data "strategy") (params_of data).
Proof.
  intros (Hm & Hj & (secret & Hs & Hne & Hk) & (ak & sk & Hak & Hakne & Hsk & Hskne & Hc)).
  unfold handler, initialize_alpaca_client, environ_get.
  rewrite Hm, Hj, Hs; cbn [String.eqb Ascii.eqb Bool.eqb negb].
  rewrite (authentication_passes _ _ Hne Hk).
  rewrite Hak, Hsk; cbn [truthy].
  rewrite (eqb_empty_false _ Hakne), (eqb_empty_false _ Hskne); cbn [negb andb].
  unfold paper_trading, environ_get in Hc; rewrite Hc.
  reflexivity.
Qed.

Lemma truthy_inv v : truthy v = true -> exists s, v = Some s /\ s <> "".
Proof.
  destruct v as [s|]; cbn [truthy]; [|discriminate].
  intros H; exists s; split; [reflexivity|].
  apply String.eqb_neq; destruct (String.eqb s ""); [discriminate|reflexivity].
Qed.

(** Every way through the handler that does not pass the checks leaves
    without having touched the client. *)
Lemma handler_outcome lib env request :
  (exists r, handler lib env request = Some (r, []))
  \/ (exists data client,
        passes_checks lib env request data client).
Proof.
  unfold handler.
  destruct (String.eqb (method request) "POST") eqn:Hm; cbn [negb];
    [|left; eauto].
  apply String.eqb_eq in Hm.
  destruct (get_json request) as [data|e] eqn:Hj; [|left; eauto].
  destruct (authentication_failed (env "WEBHOOK_SECRET_KEY") data)
    as [[|]|e] eqn:Hauth; [left; eauto| |left; eauto].
  apply authentication_passed_inv in Hauth.
  destruct Hauth as (secret & d & Hs & Hne & -> & Hk).
  destruct (truthy (env "ALPACA_API_KEY")) eqn:Hak; cbn [andb negb];
    [|left; eauto].
  destruct (truthy (env "ALPACA_SECRET_KEY")) eqn:Hsk; cbn [andb negb];
    [|left; eauto].
  apply truthy_inv in Hak; destruct Hak as (ak & Hak & Hakne).
  apply truthy_inv in Hsk; destruct Hsk as (sk & Hsk & Hskne).
  unfold initialize_alpaca_client.
  replace (environ_get env "ALPACA_API_KEY" "") with ak
    by (unfold environ_get; rewrite Hak; reflexivity).
  replace (environ_get env "ALPACA_SECRET_KEY" "") with sk
    by (unfold environ_get; rewrite Hsk; reflexivity).
  fold (paper_trading env).
  destruct (REST lib ak sk (paper_trading env)) as [client|e] eqn:Hc;
    [|left; eauto].
  right; exists d, client.
  repeat split; eauto 10.
Qed.

Lemma route_submissions client strategy_name params r log :
  route_to_strategy client strategy_name params = Some (r, log) ->
  log = [] \/
  exists call order,
    bind_strategy strategy_name params = Bound call /\
    strikes_ordered call = true /\
    limit_price order = Some (coded_limit_price call) /\
    trade client call [] = (client [] order, [order]) /\
    log = [order] /\
    r = fst (except_clauses
               (match client [] order with
                | Ok _ => Ok (OrderSubmitted, 200)
                | Raise e => Raise e
                end, [order])).
Proof.
  unfold route_to_strategy.
  destruct (bind_strategy strategy_name params) as [call|e| |] eqn:Hb;
    try discriminate.
  - destruct (trade_submissions call)
      as [(order & Hp & Hord & Hrun)|(e & _ & Hrun)].
    + unfold bind; rewrite Hrun; cbn [app].
      intros H; right; exists call, order.
      destruct (client [] order) as [o|e] eqn:Hc; cbn [ret] in H.
      * injection H as <- <-; repeat split; auto.
        rewrite Hrun, Hc; reflexivity.
      * assert (log = [order]) as ->
          by (destruct e; cbn [except_clauses] in H; injection H; auto).
        repeat split; auto.
        -- rewrite Hrun, Hc; reflexivity.
        -- destruct e; cbn [except_clauses] in H |- *; injection H; auto.
    + unfold bind; rewrite Hrun.
      intros H; left; destruct e; cbn [except_clauses] in H; injection H; auto.
  - intros H; left; destruct e; cbn [except_clauses] in H; injection H; auto.
  - intros H; left; injection H; auto.
Qed.

(** * The claims *)

(** ** C1: the secret check *)

(** C1, as stated, fails: a request whose payload carries a secret
    different from [WEBHOOK_SECRET_KEY] is answered with 405, not 403,
    when its method is not POST. *)
Lemma wrong_secret_get_is_405 :
  Sample.env "WEBHOOK_SECRET_KEY" = Some "s3cret" /\
  dict_get (Sample.payload "wrong" "bull_call_spread" []) "secret_key"
    = Some (PyStr "wrong") /\
  handler (Sample.lib Sample.accepting) Sample.env Sample.get_wrong_secret
    = Some (abort 405, []) /\
  http_status (abort 405) <> 403.
Proof. repeat split; discriminate. Qed.

(** C1 (amended): for every POST request whose body parses to a JSON
    object, if the payload's [secret_key] differs from the value of
    [WEBHOOK_SECRET_KEY], the handler aborts with 403 and submits no
    order; and every request at all either leaves the handler with no
    order submitted, or has passed the method check, the JSON parse and
    the secret check with the non-empty secret (and the brokerage client
    was built), which is when the strategy functions are reached. *)
Theorem wrong_secret_is_forbidden lib env request :
  (forall data,
      method request = "POST" ->
      get_json request = Ok (PyDict data) ->
      (forall secret, env "WEBHOOK_SECRET_KEY" = Some secret ->
                      dict_get data "secret_key" <> Some (PyStr secret)) ->
      handler lib env request = Some (abort 403, []) /\
      http_status (abort 403) = 403) /\
  ((exists r, handler lib env request = Some (r, [])) \/
   (exists data client,
       passes_checks lib env request data client /\
       handler lib env request
       = route_to_strategy client (dict_get data "strategy") (params_of data))).
Proof.
  split.
  - intros data Hm Hj Hdiff; split; [|reflexivity].
    unfold handler; rewrite Hm, Hj; cbn [String.eqb Ascii.eqb Bool.eqb negb].
    destruct (authentication_failed (env "WEBHOOK_SECRET_KEY") (PyDict data))
      as [[|]|e] eqn:Hauth; [reflexivity| |].
    + apply authentication_passed_inv in Hauth.
      destruct Hauth as (secret & d & Hs & _ & Hd & Hk).
      injection Hd as <-; exfalso; exact (Hdiff secret Hs Hk).
    + unfold authentication_failed in Hauth.
      destruct (env "WEBHOOK_SECRET_KEY") as [secret|]; [|discriminate].
      destruct (String.eqb secret ""); discriminate.
  - destruct (handler_outcome lib env request) as [H|(data & client & Hp)];
      [left; exact H|right].
    exists data, client; split; [exact Hp|].
    apply handler_after_checks; exact Hp.
Qed.

Lemma wrong_secret_is_forbidden_witness :
  handler (Sample.lib Sample.accepting) Sample.env
    (Sample.post (Sample.payload "wrong" "bull_call_spread" []))
  = Some (abort 403, []).
Proof.
  refine (proj1 (proj1 (wrong_secret_is_forbidden (Sample.lib Sample.accepting)
                   Sample.env
                   (Sample.post (Sample.payload "wrong" "bull_call_spread" [])))
                   (Sample.payload "wrong" "bull_call_spread" [])
                   eq_refl eq_refl _)).
  intros secret H; injection H as <-; discriminate.
Defined.

(** ** C9: no secret configured *)

(** C9, as stated, fails: with [WEBHOOK_SECRET_KEY] unset, a POST whose
    body does not parse is answered with 400, not 403. *)
Lemma unparseable_post_is_400 :
  Sample.env_without_secret "WEBHOOK_SECRET_KEY" = None /\
  method Sample.post_unparseable = "POST" /\
  handler (Sample.lib Sample.accepting) Sample.env_without_secret
    Sample.post_unparseable
  = Some (abort 400, []) /\
  http_status (abort 400) <> 403.
Proof. repeat split; discriminate. Qed.

(** C9 (amended): if [WEBHOOK_SECRET_KEY] is unset or empty, the handler
    aborts with 403, submitting nothing, for every POST request whose
    body [get_json] parses, whatever the payload is: an object with or
    without [secret_key], or no object at all. *)
Theorem missing_secret_fails_closed lib env request data :
  method request = "POST" ->
  get_json request = Ok data ->
  env "WEBHOOK_SECRET_KEY" = None \/ env "WEBHOOK_SECRET_KEY" = Some "" ->
  handler lib env request = Some (abort 403, []) /\
  http_status (abort 403) = 403.
Proof.
  intros Hm Hj Hs; split; [|reflexivity].
  unfold handler; rewrite Hm, Hj; cbn [String.eqb Ascii.eqb Bool.eqb negb].
  destruct Hs as [-> | ->]; reflexivity.
Qed.

Lemma missing_secret_fails_closed_witness :
  handler (Sample.lib Sample.accepting) Sample.env_without_secret
    (Sample.post (Sample.payload "" "bull_call_spread" []))
  = Some (abort 403, []).
Proof.
  exact (proj1 (missing_secret_fails_closed (Sample.lib Sample.accepting)
                  Sample.env_without_secret
                  (Sample.post (Sample.payload "" "bull_call_spread" []))
                  (PyDict (Sample.payload "" "bull_call_spread" []))
                  eq_refl eq_refl (or_introl eq_refl))).
Defined.

(** ** C2: the option symbol *)

(** C2: on the documented example ['SPY', '2025-12-19', 'C', 500.0] the
    formatter pads the underlying to six characters, so the symbol it
    returns is not the documented [SPY251219C00500000]. *)
Theorem get_option_symbol_pads_underlying :
  _get_option_symbol "SPY" "2025-12-19" "C" (Py.PyFloat Sample.float_500_0)
    = Ok "SPY   251219C00500000" /\
  _get_option_symbol "SPY" "2025-12-19" "C" (Py.PyFloat Sample.float_500_0)
    <> Ok "SPY251219C00500000".
Proof. split; [reflexivity|discriminate]. Qed.

(** ** C3: bull call spread *)




(** ** C4: bear call spread *)




(** ** C5: iron condor *)




(** ** C6: the strike-ordering check *)





(** ** C7: the translation is pure *)

(** C7: what a strategy function hands to the brokerage is determined by
    its arguments alone: for each call there is one list of orders
    (empty or a single order) that is appended to the submissions,
    whatever the client answers and whatever was submitted before. *)
Theorem translation_is_pure call :
  exists built,
    forall client log, snd (trade client call log) = (log ++ built)%list.
Proof.
  destruct (trade_submissions call) as [(order & _ & _ & Hrun)|(e & _ & Hrun)].
  - exists [order]; intros; rewrite Hrun; reflexivity.
  - exists []; intros; rewrite Hrun, app_nil_r; reflexivity.
Qed.

(** ** C8: at most one submission *)



(** ** C10: the limit price *)

Lemma coded_limit_price_value call :
  exact_value (coded_limit_price call) = Some (stated_limit_price call).
Proof. destruct call; vm_compute; reflexivity. Qed.

(** C10: the limit price of every submitted order is the constant of its
    strategy, 0.50 for the bull call spread, 0.25 for the bear call
    spread and 0.75 for the iron condor, whatever the arguments of the
    call; and every order the handler submits carries the constant of
    the strategy the payload names, whatever the request. *)
Theorem limit_price_is_fixed :
  (forall client call log order,
      snd (trade client call log) = (log ++ [order])%list ->
      limit_price order = Some (coded_limit_price call) /\
      exact_value (coded_limit_price call) = Some (stated_limit_price call)) /\
  (forall lib env request r log order,
      handler lib env request = Some (r, log) -> In order log ->
      exists data call,
        get_json request = Ok (PyDict data) /\
        bind_strategy (dict_get data "strategy") (params_of data) = Bound call /\
        limit_price order = Some (coded_limit_price call) /\
        exact_value (coded_limit_price call) = Some (stated_limit_price call)).
Proof.
  split.
  - intros client call log order H; split; [|apply coded_limit_price_value].
    destruct (trade_submissions call) as [(o & Hp & _ & Hrun)|(e & _ & Hrun)];
      rewrite Hrun in H; cbn [snd] in H.
    + apply app_inv_head in H; injection H as ->; exact Hp.
    + rewrite <- (app_nil_r log) in H at 1.
      apply app_inv_head in H; discriminate.
  - intros lib env request r log order H Hin.
    destruct (handler_outcome lib env request) as [(r' & H')|(data & client & Hp)].
    { rewrite H' in H; injection H as _ <-; destruct Hin. }
    rewrite (handler_after_checks _ _ _ _ _ Hp) in H.
    destruct (route_submissions _ _ _ _ _ H)
      as [->|(call & o & Hb & _ & Hprice & _ & -> & _)]; [destruct Hin|].
    destruct Hin as [<-|[]].
    exists data, call; repeat split; auto.
    + apply Hp.
    + apply coded_limit_price_value.
Qed.

Lemma limit_price_is_fixed_witness :
  exists order,
    snd (trade Sample.accepting Sample.bull_220_225 []) = ([] ++ [order])%list /\
    limit_price order = Some (coded_limit_price Sample.bull_220_225) /\
    exact_value (coded_limit_price Sample.bull_220_225) = Some (1 # 2)%Q.
Proof.
  eexists; split; [vm_compute; reflexivity|].
  refine (proj1 limit_price_is_fixed Sample.accepting Sample.bull_220_225 [] _ _).
  vm_compute; reflexivity.
Defined.

(** * Further properties of the code *)

(** ** Strings *)

Lemma upper_ascii_idempotent c : upper_ascii (upper_ascii c) = upper_ascii c.
Proof.
  destruct c as [[] [] [] [] [] [] [] []]; vm_compute; reflexivity.
Qed.

Lemma upper_idempotent s : upper (upper s) = upper s.
Proof.
  unfold upper; induction s as [|c s IH]; cbn [str_map]; [reflexivity|].
  rewrite upper_ascii_idempotent, IH; reflexivity.
Qed.

Lemma length_str_map g s : String.length (str_map g s) = String.length s.
Proof. induction s as [|c s IH]; cbn; [reflexivity|rewrite IH; reflexivity]. Qed.

Lemma length_app (s t : string) :
  String.length (s ++ t) = (String.length s + String.length t)%nat.
Proof. induction s as [|c s IH]; cbn; [reflexivity|rewrite IH; reflexivity]. Qed.

Lemma length_repeat_char c n : String.length (repeat_char c n) = n.
Proof. induction n as [|n IH]; cbn; [reflexivity|rewrite IH; reflexivity]. Qed.

Lemma length_ljust w s : String.length (ljust w s) = Nat.max w (String.length s).
Proof. unfold ljust; rewrite length_app, length_repeat_char; lia. Qed.

Lemma length_zfill w s : String.length (zfill w s) = Nat.max w (String.length s).
Proof. unfold zfill; rewrite length_app, length_repeat_char; lia. Qed.


Lemma length_digits_fuel fuel : forall z acc n,
  0 <= z < 10 ^ Z.of_nat (S n) ->
  (String.length (digits_fuel fuel z acc) <= S n + String.length acc)%nat.
Proof.
  induction fuel as [|fuel IH]; intros z acc n Hz; cbn [digits_fuel]; [lia|].
  destruct (z <? 10) eqn:Hlt; [cbn; lia|].
  apply Z.ltb_ge in Hlt.
  destruct n as [|n]; [simpl in Hz; lia|].
  assert (Hq : 0 <= z / 10 < 10 ^ Z.of_nat (S n)).
  { split; [apply Z.div_pos; lia|].
    apply Z.div_lt_upper_bound; [lia|].
    rewrite (Nat2Z.inj_succ (S n)), Z.pow_succ_r in Hz by lia; lia. }
  specialize (IH (z / 10) (String (digit_char (z mod 10)) acc) n Hq).
  cbn [String.length] in IH; lia.
Qed.

(** Below 10^8 the strike field has exactly eight characters. *)
Lemma length_format_08d z :
  0 <= z < 10 ^ 8 -> String.length (format_08d z) = 8%nat.
Proof.
  intros Hz; unfold format_08d.
  destruct (z <? 0) eqn:Hneg; [apply Z.ltb_lt in Hneg; lia|].
  rewrite length_zfill.
  pose proof (length_digits_fuel (S (Z.to_nat (Z.log2 z))) z EmptyString 7 Hz) as H.
  unfold str_of_nonneg; cbn [String.length] in H; lia.
Qed.


(** ** The symbol formatter, further *)

(** The symbol in terms of its four fields. *)
Lemma get_option_symbol_fields u e c rest strike z :
  Py.int (Py.mul_int strike 1000) = Ok z ->
  _get_option_symbol u e (String c rest) strike
  = Ok (ljust 6 (upper u) ++ drop 2 (remove_char "-"%char e)
          ++ String (upper_ascii c) EmptyString ++ format_08d z).
Proof.
  intros H; unfold _get_option_symbol; cbn [upper str_map first_char bind_result].
  rewrite H; reflexivity.
Qed.

(** X1: of [option_type] only the first character counts, and its case
    does not: ['call'], ['c'] and ['C'] give the same symbol, and so
    does every other text with that first letter. *)
Theorem option_type_first_letter u e c rest strike :
  _get_option_symbol u e (String c rest) strike
  = _get_option_symbol u e (String (upper_ascii c) EmptyString) strike.
Proof.
  unfold _get_option_symbol; cbn [upper str_map first_char bind_result].
  rewrite upper_ascii_idempotent; reflexivity.
Qed.

(** X2: the symbol does not depend on the letter case of the
    underlying: the uppercased underlying gives the same symbol. *)
Theorem underlying_case_insensitive u e option_type strike :
  _get_option_symbol (upper u) e option_type strike
  = _get_option_symbol u e option_type strike.
Proof.
  unfold _get_option_symbol; rewrite upper_idempotent; reflexivity.
Qed.

Lemma remove_hyphens_iso_date y1 y2 y3 y4 m1 m2 d1 d2 :
  forallb no_hyphen [y1; y2; y3; y4; m1; m2; d1; d2] = true ->
  drop 2 (remove_char "-"%char (iso_date y1 y2 y3 y4 m1 m2 d1 d2))
  = String y3 (String y4 (String m1 (String m2 (String d1 (String d2 EmptyString))))).
Proof.
  cbn [forallb]; unfold no_hyphen; intros H.
  repeat (apply andb_prop in H; destruct H as [? H]).
  repeat match goal with
         | E : negb (Ascii.eqb ?c "-"%char) = true |- _ =>
             apply negb_true_iff in E
         end.
  unfold iso_date; cbn [remove_char].
  rewrite H0, H1, H2, H3, H4, H5, H6, H7; reflexivity.
Qed.

(** X3: for an underlying of at most six characters, a date written
    [YYYY-MM-DD] and a strike whose thousandths [int(strike * 1000)] lie
    in [0, 10^8), the symbol is the underlying uppercased and padded
    with spaces to six characters, then [YYMMDD], the uppercased first
    letter of the option type, and an eight-digit field that reads back
    as the thousandths: 21 characters in all. *)
Theorem option_symbol_layout u y1 y2 y3 y4 m1 m2 d1 d2 c rest strike z :
  (String.length u <= 6)%nat ->
  forallb no_hyphen [y1; y2; y3; y4; m1; m2; d1; d2] = true ->
  Py.int (Py.mul_int strike 1000) = Ok z ->
  0 <= z < 10 ^ 8 ->
  exists root field,
    _get_option_symbol u (iso_date y1 y2 y3 y4 m1 m2 d1 d2) (String c rest) strike
    = Ok (root
          ++ String y3 (String y4 (String m1 (String m2 (String d1 (String d2
               (String (upper_ascii c) field))))))) /\
    root = ljust 6 (upper u) /\ String.length root = 6%nat /\
    String.length field = 8%nat /\ decimal_value field 0 = z /\
    String.length
      (root ++ String y3 (String y4 (String m1 (String m2 (String d1 (String d2
                 (String (upper_ascii c) field)))))))
    = 21%nat.
Proof.
  intros Hu Hd Hz Hr.
  exists (ljust 6 (upper u)), (format_08d z).
  assert (Hroot : String.length (ljust 6 (upper u)) = 6%nat).
  { rewrite length_ljust; unfold upper; rewrite length_str_map; lia. }
  pose proof (length_format_08d z Hr) as Hfield.
  split; [|repeat split; auto].
  - rewrite (get_option_symbol_fields _ _ _ _ _ _ Hz).
    rewrite (remove_hyphens_iso_date _ _ _ _ _ _ _ _ Hd); reflexivity.
  - apply format_08d_value; lia.
  - rewrite length_app, Hroot; cbn [String.length]; rewrite Hfield; reflexivity.
Qed.

Lemma option_symbol_layout_witness :
  exists root field,
    _get_option_symbol "coin" (iso_date "2" "0" "2" "5" "0" "7" "2" "5") "call"
      (Py.PyInt 220)
    = Ok (root ++ String "2" (String "5" (String "0" (String "7" (String "2"
            (String "5" (String (upper_ascii "c") field))))))) /\
    root = ljust 6 (upper "coin") /\ String.length root = 6%nat /\
    String.length field = 8%nat /\ decimal_value field 0 = 220000 /\
    String.length
      (root ++ String "2" (String "5" (String "0" (String "7" (String "2"
            (String "5" (String (upper_ascii "c") field)))))))
    = 21%nat.
Proof.
  refine (option_symbol_layout "coin" "2" "0" "2" "5" "0" "7" "2" "5" "c" "all"
            (Py.PyInt 220) 220000 _ eq_refl eq_refl _).
  - simpl; lia.
  - lia.
Defined.





(** ** The strategy functions, further *)

Lemma lt_irreflexive a : Py.lt a a = false.
Proof.
  destruct a as [x|[s|s| |s m e]]; cbn [Py.lt].
  - apply Z.ltb_irrefl.
  - destruct s; reflexivity.
  - destruct s; reflexivity.
  - reflexivity.
  - unfold SFltb, SFcompare.
    rewrite Z.compare_refl, Pos.compare_cont_refl.
    destruct s; reflexivity.
Qed.

Lemma lt_nan_l a b : Py.is_nan a = true -> Py.lt a b = false.
Proof.
  intros H; destruct (Py.lt a b) eqn:E; [|reflexivity].
  apply lt_not_nan in E; destruct E as [E _]; congruence.
Qed.

Lemma lt_nan_r a b : Py.is_nan b = true -> Py.lt a b = false.
Proof.
  intros H; destruct (Py.lt a b) eqn:E; [|reflexivity].
  apply lt_not_nan in E; destruct E as [_ E]; congruence.
Qed.

(** X6: the ordering checks are strict: a spread whose two strikes are
    equal is refused with the function's [ValueError] and nothing is
    submitted, and so is an iron condor whose short put and short call
    share a strike. *)
Theorem equal_strikes_refused client u e k lp lc q t log :
  trade_bull_call_spread client u e k k q t log
  = (Raise (ValueError
       "For a Bull Call Spread, the long_strike must be less than the short_strike."),
     log) /\
  trade_bear_call_spread client u e k k q t log
  = (Raise (ValueError
       "For a Bear Call Spread, the short_strike must be less than the long_strike."),
     log) /\
  trade_iron_condor client u e lp k k lc q t log
  = (Raise (ValueError
       "Strikes must be in ascending order: long_put < short_put < short_call < long_call."),
     log).
Proof.
  repeat split.
  - apply (trade_unordered client (BullCallSpread u e k k q t) log).
    apply lt_irreflexive.
  - apply (trade_unordered client (BearCallSpread u e k k q t) log).
    apply lt_irreflexive.
  - apply (trade_unordered client (IronCondor u e lp k k lc q t) log).
    cbn [strikes_ordered]; rewrite lt_irreflexive, andb_false_r; reflexivity.
Qed.

(** X7: a call with a NaN among its strikes is refused with the
    function's [ValueError], and nothing is submitted. *)
Theorem nan_strike_refused client call log :
  existsb Py.is_nan (strikes call) = true ->
  trade client call log = (Raise (ValueError (ordering_message call)), log).
Proof.
  intros H; apply trade_unordered.
  destruct call as [u e l s q t|u e s l q t|u e lp sp sc lc q t];
    cbn [strikes existsb strikes_ordered] in *;
    rewrite ?orb_false_r in H;
    repeat (apply orb_prop in H; destruct H as [H|H]);
    rewrite ?(lt_nan_l _ _ H), ?(lt_nan_r _ _ H), ?andb_false_r;
    reflexivity.
Qed.

Lemma nan_strike_refused_witness :
  trade Sample.accepting
    (BullCallSpread "COIN" "2025-07-25" (Py.PyFloat More.float_nan)
       (Py.PyInt 225) 1 DAY) []
  = (Raise (ValueError
       "For a Bull Call Spread, the long_strike must be less than the short_strike."),
     []).
Proof.
  exact (nan_strike_refused Sample.accepting
           (BullCallSpread "COIN" "2025-07-25" (Py.PyFloat More.float_nan)
              (Py.PyInt 225) 1 DAY) [] eq_refl).
Defined.

Lemma int_unscalable a :
  Py.is_nan a = false -> scalable a = false ->
  Py.int (Py.mul_int a 1000)
  = Raise (OverflowError "cannot convert float infinity to integer").
Proof.
  unfold scalable; destruct a as [x|x]; cbn [Py.mul_int Py.finite Py.is_nan];
    [discriminate|].
  intros Hnan Hfin.
  destruct (SFmul Py.prec Py.emax x (Py.float_of_int 1000)) eqn:E;
    cbn [Py.is_finite] in Hfin; try discriminate; cbn [Py.int]; [reflexivity|].
  apply mul_1000_nan in E; subst x; discriminate.
Qed.

Lemma get_option_symbol_overflow u e c rest strike :
  Py.is_nan strike = false -> scalable strike = false ->
  _get_option_symbol u e (String c rest) strike
  = Raise (OverflowError "cannot convert float infinity to integer").
Proof.
  intros Hnan Hs; unfold _get_option_symbol;
    cbn [upper str_map first_char bind_result].
  rewrite (int_unscalable _ Hnan Hs); reflexivity.
Qed.

(** Runs the symbol formatter on the next strike: it either overflows,
    which settles the goal, or yields a symbol. *)
Ltac next_symbol u e c strike Hnan :=
  let Hs := fresh "Hs" in
  let sym := fresh "sym" in
  let E := fresh "E" in
  destruct (scalable strike) eqn:Hs;
  [ destruct (get_option_symbol_scalable u e c EmptyString strike Hs) as [sym E]
  | pose proof (get_option_symbol_overflow u e c EmptyString strike Hnan Hs) as E ].

Lemma trade_overflow client call log :
  strikes_ordered call = true ->
  forallb scalable (strikes call) = false ->
  trade client call log
  = (Raise (OverflowError "cannot convert float infinity to integer"), log).
Proof.
  intros Hord Hsc.
  destruct call as [u e l s q t|u e s l q t|u e lp sp sc lc q t];
    cbn [strikes forallb strikes_ordered] in Hord, Hsc.
  - destruct (lt_not_nan _ _ Hord) as [Nl Ns].
    run_strategy; rewrite Hord; cbn [negb].
    next_symbol u e "C"%char l Nl; rewrite E; [|reflexivity].
    next_symbol u e "C"%char s Ns; rewrite E0; [|reflexivity].
    discriminate.
  - destruct (lt_not_nan _ _ Hord) as [Ns Nl].
    run_strategy; rewrite Hord; cbn [negb].
    next_symbol u e "C"%char s Ns; rewrite E; [|reflexivity].
    next_symbol u e "C"%char l Nl; rewrite E0; [|reflexivity].
    discriminate.
  - pose proof Hord as Hord'.
    apply andb_prop in Hord'; destruct Hord' as [Hord' L3].
    apply andb_prop in Hord'; destruct Hord' as [L1 L2].
    destruct (lt_not_nan _ _ L1) as [N1 N2].
    destruct (lt_not_nan _ _ L3) as [N3 N4].
    run_strategy; rewrite Hord; cbn [negb].
    next_symbol u e "P"%char lp N1; rewrite E; [|reflexivity].
    next_symbol u e "P"%char sp N2; rewrite E0; [|reflexivity].
    next_symbol u e "C"%char sc N3; rewrite E1; [|reflexivity].
    next_symbol u e "C"%char lc N4; rewrite E2; [|reflexivity].
    discriminate.
Qed.



(** With the strikes in order and in range the function reaches the
    client with one order, whose fields are these. *)
Lemma trade_ordered_scalable call :
  strikes_ordered call = true ->
  forallb scalable (strikes call) = true ->
  exists order,
    (forall client log,
        trade client call log = (client log order, (log ++ [order])%list)) /\
    symbol order = call_underlying call /\
    qty order = call_quantity call /\
    type order = Some LIMIT /\
    time_in_force order = Some (call_time_in_force call) /\
    order_class order = Some MULTILEG /\
    limit_price order = Some (coded_limit_price call) /\
    List.length (legs order) = List.length (strikes call) /\
    Forall (fun l => qty l = call_quantity call /\ legs l = [] /\
                     limit_price l = None /\ order_class l = None)
           (legs order).
Proof.
  intros Hord Hsc.
  destruct call as [u e l s q t|u e s l q t|u e lp sp sc lc q t];
    cbn [strikes forallb strikes_ordered] in Hord, Hsc;
    rewrite ?andb_true_r in Hsc.
  - apply andb_prop in Hsc; destruct Hsc as [S1 S2].
    destruct (get_option_symbol_scalable u e "C"%char "" _ S1) as [s1 E1].
    destruct (get_option_symbol_scalable u e "C"%char "" _ S2) as [s2 E2].
    eexists; split.
    + intros client log.
      apply (bull_call_spread_run client u e l s q t log s1 s2); assumption.
    + cbn; repeat split; repeat constructor.
  - apply andb_prop in Hsc; destruct Hsc as [S1 S2].
    destruct (get_option_symbol_scalable u e "C"%char "" _ S1) as [s1 E1].
    destruct (get_option_symbol_scalable u e "C"%char "" _ S2) as [s2 E2].
    eexists; split.
    + intros client log.
      apply (bear_call_spread_run client u e s l q t log s1 s2); assumption.
    + cbn; repeat split; repeat constructor.
  - apply andb_prop in Hsc; destruct Hsc as [S1 Hsc].
    apply andb_prop in Hsc; destruct Hsc as [S2 Hsc].
    apply andb_prop in Hsc; destruct Hsc as [S3 S4].
    destruct (get_option_symbol_scalable u e "P"%char "" _ S1) as [s1 E1].
    destruct (get_option_symbol_scalable u e "P"%char "" _ S2) as [s2 E2].
    destruct (get_option_symbol_scalable u e "C"%char "" _ S3) as [s3 E3].
    destruct (get_option_symbol_scalable u e "C"%char "" _ S4) as [s4 E4].
    eexists; split.
    + intros client log.
      apply (iron_condor_run client u e lp sp sc lc q t log s1 s2 s3 s4);
        assumption.
    + cbn; repeat split; repeat constructor.
Qed.

(** X9: every order a strategy function submits is a LIMIT order of
    class MULTILEG for the given underlying, quantity and time in force,
    with one leg per strike; each leg has the order's quantity and is a
    plain leg: no legs, limit price or order class of its own. *)
Theorem submitted_order_shape client call log order :
  snd (trade client call log) = (log ++ [order])%list ->
  symbol order = call_underlying call /\
  qty order = call_quantity call /\
  type order = Some LIMIT /\
  time_in_force order = Some (call_time_in_force call) /\
  order_class order = Some MULTILEG /\
  List.length (legs order) = List.length (strikes call) /\
  Forall (fun l => qty l = call_quantity call /\ legs l = [] /\
                   limit_price l = None /\ order_class l = None)
         (legs order).
Proof.
  intros H.
  destruct (strikes_ordered call) eqn:Hord.
  2:{ rewrite (trade_unordered client call log Hord) in H; cbn [snd] in H.
      rewrite <- (app_nil_r log) in H at 1.
      apply app_inv_head in H; discriminate. }
  destruct (forallb scalable (strikes call)) eqn:Hsc.
  2:{ rewrite (trade_overflow client call log Hord Hsc) in H.
      cbn [snd] in H; rewrite <- (app_nil_r log) in H at 1.
      apply app_inv_head in H; discriminate. }
  destruct (trade_ordered_scalable call Hord Hsc)
    as (o & Hrun & F1 & F2 & F3 & F4 & F5 & _ & F6 & F7).
  rewrite Hrun in H; cbn [snd] in H.
  apply app_inv_head in H; injection H as <-.
  repeat split; assumption.
Qed.

Lemma submitted_order_shape_witness :
  exists order,
    snd (trade Sample.accepting Sample.bull_220_225 []) = ([] ++ [order])%list /\
    symbol order = "COIN" /\ qty order = 1 /\ type order = Some LIMIT /\
    time_in_force order = Some DAY /\ order_class order = Some MULTILEG /\
    List.length (legs order) = 2%nat.
Proof.
  eexists; split; [vm_compute; reflexivity|].
  pose proof (submitted_order_shape Sample.accepting Sample.bull_220_225 [] _
                eq_refl) as (F1 & F2 & F3 & F4 & F5 & F6 & _).
  repeat split; assumption.
Defined.





(** ** The handler, further *)







Lemma sample_passes client strategy params :
  passes_checks (Sample.lib client) Sample.env (More.request_of strategy params)
    (Sample.payload "s3cret" strategy params) client.
Proof.
  repeat split.
  - exists "s3cret"; repeat split; discriminate.
  - exists "key", "secret"; repeat split; discriminate.
Qed.










(** X17: a POST that carries the right secret is answered 500, and no
    client is built, when [ALPACA_API_KEY] or [ALPACA_SECRET_KEY] is
    unset or empty. *)
Theorem missing_credentials_is_500 lib env request data secret :
  method request = "POST" ->
  get_json request = Ok (PyDict data) ->
  env "WEBHOOK_SECRET_KEY" = Some secret -> secret <> "" ->
  dict_get data "secret_key" = Some (PyStr secret) ->
  truthy (env "ALPACA_API_KEY") && truthy (env "ALPACA_SECRET_KEY") = false ->
  handler lib env request = Some (abort 500, []).
Proof.
  intros Hm Hj Hs Hne Hk Hcred.
  unfold handler; rewrite Hm, Hj, Hs; cbn [String.eqb Ascii.eqb Bool.eqb negb].
  rewrite (authentication_passes _ _ Hne Hk), Hcred; reflexivity.
Qed.

Lemma missing_credentials_is_500_witness :
  handler (Sample.lib Sample.accepting) More.env_without_credentials
    Sample.bull_request
  = Some (abort 500, []).
Proof.
  refine (missing_credentials_is_500 (Sample.lib Sample.accepting)
            More.env_without_credentials Sample.bull_request _ "s3cret"
            eq_refl eq_refl eq_refl _ eq_refl eq_refl).
  discriminate.
Defined.

(** X18: when the library fails to build the client, whatever it raises,
    the handler answers 500 and nothing is submitted. *)
Theorem client_construction_failure_is_500 lib env request data secret
    api_key secret_key e :
  method request = "POST" ->
  get_json request = Ok (PyDict data) ->
  env "WEBHOOK_SECRET_KEY" = Some secret -> secret <> "" ->
  dict_get data "secret_key" = Some (PyStr secret) ->
  env "ALPACA_API_KEY" = Some api_key -> api_key <> "" ->
  env "ALPACA_SECRET_KEY" = Some secret_key -> secret_key <> "" ->
  REST lib api_key secret_key (paper_trading env) = Raise e ->
  handler lib env request = Some (abort 500, []).
Proof.
  intros Hm Hj Hs Hne Hk Hak Hakne Hsk Hskne Hc.
  unfold handler, initialize_alpaca_client, environ_get.
  rewrite Hm, Hj, Hs; cbn [String.eqb Ascii.eqb Bool.eqb negb].
  rewrite (authentication_passes _ _ Hne Hk).
  rewrite Hak, Hsk; cbn [truthy].
  rewrite (eqb_empty_false _ Hakne), (eqb_empty_false _ Hskne); cbn [negb andb].
  unfold paper_trading, environ_get in Hc; rewrite Hc; reflexivity.
Qed.

Lemma client_construction_failure_is_500_witness :
  handler More.broken_lib Sample.env Sample.bull_request = Some (abort 500, []).
Proof.
  refine (client_construction_failure_is_500 More.broken_lib Sample.env
            Sample.bull_request _ "s3cret" "key" "secret" _
            eq_refl eq_refl eq_refl _ eq_refl eq_refl _ eq_refl _ eq_refl);
    discriminate.
Defined.

(** X19: a request that passes the checks but names none of the three
    strategies (another name, no name, or a name that is not a string)
    is answered 400 ['Unknown strategy'] with nothing submitted,
    whatever its parameters are. *)
Theorem unknown_strategy_is_400 lib env request data client :
  passes_checks lib env request data client ->
  known_strategy (dict_get data "strategy") = false ->
  handler lib env request = Some (Ok (UnknownStrategyBody, 400), []).
Proof.
  intros Hp Hk.
  rewrite (handler_after_checks _ _ _ _ _ Hp).
  unfold known_strategy in Hk.
  apply orb_false_elim in Hk; destruct Hk as [Hk H3].
  apply orb_false_elim in Hk; destruct Hk as [H1 H2].
  unfold route_to_strategy, bind_strategy; rewrite H1, H2, H3; reflexivity.
Qed.

Lemma unknown_strategy_is_400_witness :
  handler (Sample.lib Sample.accepting) Sample.env
    (More.request_of "straddle" [])
  = Some (Ok (UnknownStrategyBody, 400), []).
Proof.
  exact (unknown_strategy_is_400 (Sample.lib Sample.accepting) Sample.env
           (More.request_of "straddle" []) _ Sample.accepting
           (sample_passes Sample.accepting "straddle" []) eq_refl).
Defined.

(** The binding of a known strategy in terms of [keyword_args]. *)
Lemma bind_known_strategy strategy_name params :
  known_strategy strategy_name = true ->
  forall e,
    keyword_args (required_parameters strategy_name) ["time_in_force"] params
    = Raise e ->
    bind_strategy strategy_name params = BindingError e.
Proof.
  intros Hk e; unfold bind_strategy, required_parameters, known_strategy in *.
  destruct (py_eq_str strategy_name "bull_call_spread").
  { unfold bind_bull_call_spread, spread_parameters; intros ->; reflexivity. }
  destruct (py_eq_str strategy_name "bear_call_spread").
  { unfold bind_bear_call_spread, spread_parameters; intros ->; reflexivity. }
  destruct (py_eq_str strategy_name "iron_condor"); [|discriminate].
  unfold bind_iron_condor; intros ->; reflexivity.
Qed.

Lemma handler_binding_error lib env request data client e :
  passes_checks lib env request data client ->
  bind_strategy (dict_get data "strategy") (params_of data) = BindingError e ->
  handler lib env request = Some (Ok (answer_to e), []).
Proof.
  intros Hp Hb.
  rewrite (handler_after_checks _ _ _ _ _ Hp).
  unfold route_to_strategy; rewrite Hb; destruct e; reflexivity.
Qed.

(** X20: for a known strategy, parameters that are not an object, or an
    object that lacks one of the function's required parameters (also
    when [params] is absent, which stands for the empty object), are
    answered 400 ['Invalid parameters'] with a [TypeError]; nothing is
    submitted. *)
Theorem missing_parameter_is_400 lib env request data client :
  passes_checks lib env request data client ->
  known_strategy (dict_get data "strategy") = true ->
  (forall p, params_of data = PyDict p ->
             forallb (has_key p)
               (required_parameters (dict_get data "strategy")) = false) ->
  exists msg,
    handler lib env request
    = Some (Ok (InvalidParameters (TypeError msg), 400), []).
Proof.
  intros Hp Hk Hmiss.
  assert (exists msg,
             keyword_args (required_parameters (dict_get data "strategy"))
               ["time_in_force"] (params_of data) = Raise (TypeError msg))
    as (msg & Hkw).
  { unfold keyword_args.
    destruct (params_of data) as [| | | | |p] eqn:Hparams; eauto.
    rewrite (Hmiss p eq_refl); cbn [negb].
    destruct (has_key p "client"); eauto.
    destruct (negb (all_in _ _)); eauto. }
  exists msg.
  rewrite (handler_binding_error _ _ _ _ _ _ Hp
             (bind_known_strategy _ _ Hk _ Hkw)).
  reflexivity.
Qed.

Lemma missing_parameter_is_400_witness :
  exists msg,
    handler (Sample.lib Sample.accepting) Sample.env
      (More.request_of "iron_condor"
         (Sample.spread_params (Py.PyInt 220) (Py.PyInt 225)))
    = Some (Ok (InvalidParameters (TypeError msg), 400), []).
Proof.
  refine (missing_parameter_is_400 (Sample.lib Sample.accepting) Sample.env
            (More.request_of "iron_condor"
               (Sample.spread_params (Py.PyInt 220) (Py.PyInt 225)))
            _ Sample.accepting (sample_passes Sample.accepting "iron_condor" _)
            eq_refl _).
  intros p H; injection H as <-; reflexivity.
Defined.

Lemma has_key_in p key : has_key p key = true -> In key (map fst p).
Proof.
  unfold has_key; induction p as [|[k v] p IH]; cbn [dict_get map fst In];
    [discriminate|].
  destruct (String.eqb k key) eqn:E; [|auto].
  apply String.eqb_eq in E; auto.
Qed.

Lemma all_in_spec keys allowed :
  all_in keys allowed = true ->
  forall k, In k keys -> existsb (String.eqb k) allowed = true.
Proof.
  induction keys as [|a keys IH]; cbn [all_in In]; [intros _ k []|].
  intros H k [<-|Hin]; apply andb_prop in H; destruct H as [Ha H]; auto.
Qed.

(** X21: for a known strategy, an object of parameters that names
    something the function does not take is answered 400
    ['Invalid parameters'] with a [TypeError] and nothing is submitted;
    [client] is such a name, so a payload cannot supply the client. *)
Theorem unexpected_parameter_is_400 lib env request data client p key :
  passes_checks lib env request data client ->
  known_strategy (dict_get data "strategy") = true ->
  params_of data = PyDict p ->
  has_key p key = true ->
  existsb (String.eqb key)
    (required_parameters (dict_get data "strategy") ++ ["time_in_force"])%list
  = false ->
  exists msg,
    handler lib env request
    = Some (Ok (InvalidParameters (TypeError msg), 400), []).
Proof.
  intros Hp Hk Hparams Hkey Hnot.
  assert (exists msg,
             keyword_args (required_parameters (dict_get data "strategy"))
               ["time_in_force"] (params_of data) = Raise (TypeError msg))
    as (msg & Hkw).
  { rewrite Hparams; unfold keyword_args.
    destruct (has_key p "client"); eauto.
    destruct (all_in (map fst p) _) eqn:Hall; cbn [negb]; eauto.
    pose proof (all_in_spec _ _ Hall key (has_key_in _ _ Hkey)); congruence. }
  exists msg.
  rewrite (handler_binding_error _ _ _ _ _ _ Hp
             (bind_known_strategy _ _ Hk _ Hkw)).
  reflexivity.
Qed.

Lemma unexpected_parameter_is_400_witness :
  exists msg,
    handler (Sample.lib Sample.accepting) Sample.env
      (More.request_of "bull_call_spread"
         (("client", PyStr "mine")
          :: Sample.spread_params (Py.PyInt 220) (Py.PyInt 225)))
    = Some (Ok (InvalidParameters (TypeError msg), 400), []).
Proof.
  exact (unexpected_parameter_is_400 (Sample.lib Sample.accepting) Sample.env
           (More.request_of "bull_call_spread"
              (("client", PyStr "mine")
               :: Sample.spread_params (Py.PyInt 220) (Py.PyInt 225)))
           _ Sample.accepting _ "client"
           (sample_passes Sample.accepting "bull_call_spread" _)
           eq_refl eq_refl eq_refl eq_refl).
Defined.

Lemma length_lower s : String.length (lower s) = String.length s.
Proof. apply length_str_map. Qed.

(** X22: past the secret and credential checks the handler asks the
    library for a paper-trading client exactly when
    [ALPACA_PAPER_TRADING] is unset or reads ['true'] in any letter
    case; every other value, any text that is not four characters long
    among them, selects live trading. *)
Theorem paper_trading_selection lib env request data secret api_key secret_key :
  method request = "POST" ->
  get_json request = Ok (PyDict data) ->
  env "WEBHOOK_SECRET_KEY" = Some secret -> secret <> "" ->
  dict_get data "secret_key" = Some (PyStr secret) ->
  env "ALPACA_API_KEY" = Some api_key -> api_key <> "" ->
  env "ALPACA_SECRET_KEY" = Some secret_key -> secret_key <> "" ->
  exists paper,
    handler lib env request
    = match REST lib api_key secret_key paper with
      | Ok client =>
          route_to_strategy client (dict_get data "strategy") (params_of data)
      | Raise _ => Some (abort 500, [])
      end /\
    (paper = true <->
     (env "ALPACA_PAPER_TRADING" = None \/
      exists v, env "ALPACA_PAPER_TRADING" = Some v /\ lower v = "true")) /\
    (forall v, env "ALPACA_PAPER_TRADING" = Some v ->
               String.length v <> 4%nat -> paper = false).
Proof.
  intros Hm Hj Hs Hne Hk Hak Hakne Hsk Hskne.
  exists (paper_trading env); split; [|split].
  - unfold handler, initialize_alpaca_client.
    rewrite Hm, Hj, Hs; cbn [String.eqb Ascii.eqb Bool.eqb negb].
    rewrite (authentication_passes _ _ Hne Hk).
    rewrite Hak, Hsk; cbn [truthy].
    rewrite (eqb_empty_false _ Hakne), (eqb_empty_false _ Hskne);
      cbn [negb andb].
    replace (environ_get env "ALPACA_API_KEY" "") with api_key
      by (unfold environ_get; rewrite Hak; reflexivity).
    replace (environ_get env "ALPACA_SECRET_KEY" "") with secret_key
      by (unfold environ_get; rewrite Hsk; reflexivity).
    fold (paper_trading env).
    destruct (REST lib api_key secret_key (paper_trading env)); reflexivity.
  - unfold paper_trading, environ_get.
    destruct (env "ALPACA_PAPER_TRADING") as [v|]; split.
    + intros H; right; exists v; split; [reflexivity|].
      apply String.eqb_eq; exact H.
    + intros [H|(v' & H & Hv)]; [discriminate|].
      injection H as <-; apply String.eqb_eq; exact Hv.
    + auto.
    + reflexivity.
  - intros v Hv Hlen; unfold paper_trading, environ_get; rewrite Hv.
    apply String.eqb_neq; intros E; apply Hlen.
    rewrite <- (length_lower v), E; reflexivity.
Qed.

Lemma paper_trading_selection_witness :
  handler (More.paper_only Sample.accepting) (More.env_paper "1")
    Sample.bull_request
  = Some (abort 500, []).
Proof.
  destruct (paper_trading_selection (More.paper_only Sample.accepting)
              (More.env_paper "1") Sample.bull_request
              (Sample.payload "s3cret" "bull_call_spread"
                 (Sample.spread_params (Py.PyFloat Sample.float_220_0)
                    (Py.PyFloat Sample.float_225_0)))
              "s3cret" "key" "secret"
              eq_refl eq_refl eq_refl ltac:(discriminate) eq_refl
              eq_refl ltac:(discriminate) eq_refl ltac:(discriminate))
    as (paper & H & _ & Hlive).
  rewrite H, (Hlive "1" eq_refl ltac:(discriminate)); reflexivity.
Defined.

(** X23: with a secret configured, a POST whose JSON body is not an
    object (a list, a string, a number, [null]) is neither rejected as
    403 nor as 400: looking up its [secret_key] raises [AttributeError],
    which leaves the handler uncaught (a 500 for the caller); nothing is
    submitted. *)
Theorem non_object_body_raises lib env request data secret :
  method request = "POST" ->
  get_json request = Ok data ->
  (forall d, data <> PyDict d) ->
  env "WEBHOOK_SECRET_KEY" = Some secret -> secret <> "" ->
  handler lib env request
  = Some (Raise (AttributeError "object has no attribute 'get'"), []) /\
  http_status (Raise (AttributeError "object has no attribute 'get'")) = 500.
Proof.
  intros Hm Hj Hd Hs Hne; split; [|reflexivity].
  unfold handler; rewrite Hm, Hj, Hs; cbn [String.eqb Ascii.eqb Bool.eqb negb].
  unfold authentication_failed; rewrite (eqb_empty_false _ Hne).
  destruct data; try reflexivity.
  exfalso; exact (Hd _ eq_refl).
Qed.

Lemma non_object_body_raises_witness :
  handler (Sample.lib Sample.accepting) Sample.env
    (mkRequest "POST" (Ok (PyList [])))
  = Some (Raise (AttributeError "object has no attribute 'get'"), []).
Proof.
  refine (proj1 (non_object_body_raises (Sample.lib Sample.accepting) Sample.env
                   (mkRequest "POST" (Ok (PyList []))) (PyList []) "s3cret"
                   eq_refl eq_refl _ eq_refl _)); discriminate.
Defined.

(** X24: a call written out as a payload, under its strategy name and
    with one keyword per parameter (the time in force only when it is
    not the default [DAY]), binds back to that very call: nothing is
    lost or reordered between the payload and the function's
    parameters. *)
Theorem payload_binds_to_call call :
  bind_strategy (Some (PyStr (call_name call))) (PyDict (call_params call))
  = Bound call.
Proof.
  destruct call as [u e l s q [|v]|u e s l q [|v]|u e lp sp sc lc q [|v]];
    reflexivity.
Qed.










(** ** The strike field and the float product *)

Lemma int_truncates_toward_zero p z v :
  Py.int (Py.PyFloat p) = Ok z ->
  exact_value p = Some v ->
  ((0 <= v)%Q -> (inject_Z z <= v)%Q /\ (v < inject_Z (z + 1))%Q) /\
  ((v <= 0)%Q -> (inject_Z (z - 1) < v)%Q /\ (v <= inject_Z z)%Q).
Proof.
  destruct p as [s|s| |s m e]; unfold Py.int, exact_value; try discriminate.
  - intros H1 H2; injection H1 as <-; injection H2 as <-.
    unfold Qle, Qlt; cbn; lia.
  - intros H1 H2.
    assert (Hz : z = if s then - (if 0 <=? e then Z.pos m * 2 ^ e
                                  else Z.pos m / 2 ^ (- e))
                     else (if 0 <=? e then Z.pos m * 2 ^ e
                           else Z.pos m / 2 ^ (- e)))
      by (injection H1 as <-; reflexivity).
    assert (Hv : (v == if 0 <=? e
                       then inject_Z ((if s then Z.neg m else Z.pos m) * 2 ^ e)
                       else Qmake (if s then Z.neg m else Z.pos m)
                                  (Z.to_pos (2 ^ (- e))))%Q)
      by (injection H2 as <-; apply Qred_correct).
    clear H1 H2.
    destruct (0 <=? e) eqn:He.
    + apply Z.leb_le in He.
      pose proof (Z.pow_pos_nonneg 2 e ltac:(lia) He) as Hp.
      set (d := 2 ^ e) in *.
      split; intros H0; rewrite Hv in *;
        destruct s; subst z; unfold Qle, Qlt, inject_Z in *;
        cbn [Qnum Qden] in *;
        rewrite <- ?Pos2Z.opp_pos in *; nia.
    + apply Z.leb_gt in He.
      pose proof (Z.pow_pos_nonneg 2 (- e) ltac:(lia) ltac:(lia)) as Hp.
      set (d := 2 ^ (- e)) in *.
      pose proof (Z.mul_div_le (Z.pos m) d Hp) as Hlo.
      pose proof (Z.mul_succ_div_gt (Z.pos m) d Hp) as Hhi.
      assert (Hd : Z.pos (Z.to_pos d) = d) by (apply Z2Pos.id; exact Hp).
      set (w := Z.pos m / d) in *.
      split; intros H0; rewrite Hv in *;
        destruct s; subst z; unfold Qle, Qlt, inject_Z in *;
        cbn [Qnum Qden] in *;
        rewrite ?Hd in *; rewrite <- ?Pos2Z.opp_pos in *; nia.
Qed.

(** X27: for a float strike, the thousandths written into the symbol are
    the float product [strike * 1000] cut toward zero, not rounded: a
    product just below an integer loses almost a whole thousandth. *)
Theorem thousandths_are_truncated f z v :
  Py.int (Py.mul_int (Py.PyFloat f) 1000) = Ok z ->
  exact_value (SFmul Py.prec Py.emax f (Py.float_of_int 1000)) = Some v ->
  ((0 <= v)%Q -> (inject_Z z <= v)%Q /\ (v < inject_Z (z + 1))%Q) /\
  ((v <= 0)%Q -> (inject_Z (z - 1) < v)%Q /\ (v <= inject_Z z)%Q).
Proof. exact (int_truncates_toward_zero _ z v). Qed.

Lemma thousandths_are_truncated_witness :
  exists v,
    exact_value (SFmul Py.prec Py.emax (Py.float_lit 1001 1000)
                   (Py.float_of_int 1000)) = Some v /\
    (inject_Z 1000 <= v)%Q /\ (v < inject_Z 1001)%Q.
Proof.
  eexists; split; [vm_compute; reflexivity|].
  refine (proj1 (thousandths_are_truncated (Py.float_lit 1001 1000) 1000 _
                   eq_refl eq_refl) _).
  vm_compute; discriminate.
Defined.
